(** * RentEase: booking lifecycle and wallet ledger

    A shallow embedding of the booking controller
    (server/controllers/bookingController.js), the Booking model
    (calculatePricing, addTimelineEntry, the pre-save date hook), the
    wallet part of the User model, the wallet top-up handler
    (addToWallet), the complaint refund of the admin controller and the
    rental-extension handler (extendRentalPeriod) of the item controller.

    Conventions of the embedding:
    - A JavaScript Number is modelled as an integer [Z]: the embedding
      covers the requests whose prices and amounts are integers, with
      every stored or intermediate value of magnitude at most 2^53.
      There each sum, difference and product of doubles is exact, and
      Math.ceil and Math.round of the quotients by 86400000 and by 100 are
      the integer ceiling and the half-up rounding written below.  The
      product subtotal * 0.05 is not exact even there (0.05 is not a
      double); it is modelled with its binary rounding
      ([times_0_05]).
    - Fractional prices and amounts, which the routes accept, are outside
      the integer embedding.  The arithmetic of calculatePricing, of the
      extension and of the wallet update is embedded a second time on
      binary64 numbers in module [Doubles]; it shows where an equality
      that holds for integers fails by rounding for fractions.
    - A Date is its epoch value in milliseconds, a [Z].
    - A MongoDB ObjectId is an [N]; a collection is a [gmap] from ids to
      documents.
    - A handler runs inside try/catch: it either sends a response early
      (return res.status(..).json(..)), or throws (a TypeError on a null
      document, the error of a pre-save hook), or continues.  Database
      writes made before the exit are kept: the source uses no
      transaction. *)

From stdpp Require Import gmap strings list fin_maps pretty.
From Stdlib Require Import ZArith Lia.
From Stdlib Require Import Floats.PrimFloat.

(* A decimal literal of a binary64 number denotes the nearest double, as
   in JavaScript. *)
Set Warnings "-inexact-float".

Local Open Scope Z_scope.

(** ** Data model *)

Definition ObjectId := N.

(** wallet.transactions[].type: enum ['credit', 'debit'] *)
Inductive TxType := credit | debit.

Record Transaction := mkTransaction {
  tx_type : TxType;
  tx_amount : Z;
  tx_description : string;
  tx_date : Z;
  tx_bookingId : option ObjectId
}.

(** User.wallet *)
Record Wallet := mkWallet {
  balance : Z;
  transactions : list Transaction
}.

(** The fields of a User document the booking subsystem reads or writes. *)
Record User := mkUser {
  wallet : Wallet;
  stats_totalEarnings : Z
}.

(** The fields of an Item document the booking subsystem reads or writes
    (itemSchema: dailyPrice with min 1, itemValue with min 100,
    depositPercentage from 10 to 100 with default 20, all of type
    Number). *)
Record Item := mkItem {
  item_owner : ObjectId;
  item_title : string;
  item_isAvailable : bool;          (* availability.isAvailable *)
  item_dailyPrice : Z;
  item_itemValue : Z;
  item_depositPercentage : Z;
  item_stats_bookings : Z;          (* stats.bookings *)
  item_stats_totalEarnings : Z      (* stats.totalEarnings *)
}.

(** Booking.status: enum ['pending','approved','active','completed','cancelled'] *)
Inductive Status := pending | approved | active | completed | cancelled.

Definition Status_eqb (a b : Status) : bool :=
  match a, b with
  | pending, pending | approved, approved | active, active
  | completed, completed | cancelled, cancelled => true
  | _, _ => false
  end.

Record Pricing := mkPricing {
  dailyPrice : Z;
  totalDays : Z;
  subtotal : Z;
  depositAmount : Z;
  platformFee : Z;
  totalAmount : Z;
  lenderEarnings : Z
}.

Record Payment := mkPayment {
  depositPaid : bool;
  depositRefunded : bool;
  finalPaymentMade : bool;
  lenderPaid : bool
}.

Record TimelineEntry := mkTimelineEntry {
  tl_status : string;
  tl_note : string;
  tl_timestamp : Z
}.

Record Message := mkMessage {
  msg_sender : ObjectId;
  msg_message : string;
  msg_timestamp : Z
}.

(** A Booking document; its _id is its key in the collection. *)
Record Booking := mkBooking {
  item : ObjectId;
  borrower : ObjectId;
  lender : ObjectId;
  startDate : Z;
  endDate : Z;
  status : Status;
  pricing : Pricing;
  payment : Payment;
  timeline : list TimelineEntry;
  messages : list Message
}.

(** The database: the three collections. *)
Record Db := mkDb {
  users : gmap N User;
  items : gmap N Item;
  bookings : gmap N Booking
}.

(** res.status(code).json({ message }) *)
Inductive Response := Res (code : Z) (message : string).

(** ** Numbers *)

Definition MS_PER_DAY : Z := 1000 * 60 * 60 * 24.

(** Math.ceil(n / d) for integers n and d > 0. *)
Definition Math_ceil_div (n d : Z) : Z := - ((- n) / d).

(** Math.round(n / d) for integers n and d > 0: the nearest integer, a
    half rounding up (towards +infinity), that is floor(n/d + 1/2). *)
Definition Math_round_div (n d : Z) : Z := (2 * n + d) / (2 * d).

(** The double nearest to a positive integer n (round to nearest, ties
    to even): n itself when it has at most 53 bits, else n rounded to a
    multiple of 2^sh, sh being the number of bits beyond 53. *)
Definition round53 (n : Z) : Z :=
  let sh := Z.log2 n - 52 in
  if sh <=? 0 then n
  else
    let q := n / 2 ^ sh in
    let r := n mod 2 ^ sh in
    let half := 2 ^ (sh - 1) in
    (if (half <? r) || ((r =? half) && Z.odd q) then q + 1 else q) * 2 ^ sh.

(** Rounding to nearest is symmetric about 0. *)
Definition to_double (n : Z) : Z := Z.sgn n * round53 (Z.abs n).

(** The literal 0.05 is the double 3602879701896397 / 2^56. *)
Definition NUM_0_05 : Z := 3602879701896397.

(** s * 0.05 for an integer s: the exact product s * 3602879701896397 /
    2^56 rounded to a double; the result is given by its numerator over
    2^56 (an integer, the product of a non-zero s having at least 52
    bits). *)
Definition times_0_05 (s : Z) : Z := to_double (s * NUM_0_05).

(** ** Handlers: database state, early responses and exceptions *)

Inductive Outcome (A : Type) :=
| Continue (a : A)
| Respond (r : Response)
| Throw.
Arguments Continue {A} a.
Arguments Respond {A} r.
Arguments Throw {A}.

Definition Handler (A : Type) : Type := Db -> Db * Outcome A.

Definition ret {A} (a : A) : Handler A := fun db => (db, Continue a).

Definition bind {A B} (m : Handler A) (k : A -> Handler B) : Handler B :=
  fun db =>
    match m db with
    | (db', Continue a) => k a db'
    | (db', Respond r) => (db', Respond r)
    | (db', Throw) => (db', Throw)
    end.

Notation "'let*' x ':=' m 'in' k" := (bind m (fun x => k))
  (at level 10, x name, m at level 100, k at level 200).
Notation "'exec' m 'in' k" := (bind m (fun _ => k))
  (at level 10, m at level 100, k at level 200).

(** return res.status(code).json({ success: false, message }) *)
Definition respond {A} (code : Z) (message : string) : Handler A :=
  fun db => (db, Respond (Res code message)).

Definition throw {A} : Handler A := fun db => (db, Throw).

(** if (c) { return res.status(code).json(..) } *)
Definition reject_if (c : bool) (code : Z) (message : string) : Handler unit :=
  if c then respond code message else ret tt.

(** Reading a property of a document that may be null: a TypeError on
    null. *)
Definition deref {A} (o : option A) : Handler A :=
  match o with
  | Some a => ret a
  | None => throw
  end.

(** try { body } catch (error) { res.status(500).json({ message }) } *)
Definition try_catch (body : Handler Response) (message : string)
  : Db -> Db * Response :=
  fun db =>
    match body db with
    | (db', Continue r) => (db', r)
    | (db', Respond r) => (db', r)
    | (db', Throw) => (db', Res 500 message)
    end.

(** ** Database primitives (Mongoose) *)

Definition User_findById (id : ObjectId) : Handler (option User) :=
  fun db => (db, Continue (users db !! id)).

Definition Item_findById (id : ObjectId) : Handler (option Item) :=
  fun db => (db, Continue (items db !! id)).

Definition Booking_findById (id : ObjectId) : Handler (option Booking) :=
  fun db => (db, Continue (bookings db !! id)).

(** Model.findByIdAndUpdate(id, update): applies the update to the
    document with that id, and does nothing when there is none. *)
Definition User_findByIdAndUpdate (id : ObjectId) (f : User -> User)
  : Handler unit :=
  fun db => (mkDb (alter f id (users db)) (items db) (bookings db),
             Continue tt).

Definition Item_findByIdAndUpdate (id : ObjectId) (f : Item -> Item)
  : Handler unit :=
  fun db => (mkDb (users db) (alter f id (items db)) (bookings db),
             Continue tt).

(** The update document { $inc: { 'wallet.balance': delta },
    $push: { 'wallet.transactions': t } }.  One $inc is one addition of
    doubles, exact on integers up to 2^53; what several updates add up
    to is the integer sum only while every amount is an integer. *)
Definition inc_balance_push (delta : Z) (t : Transaction) (u : User) : User :=
  mkUser (mkWallet (balance (wallet u) + delta) (transactions (wallet u) ++ [t]))
         (stats_totalEarnings u).

(** The update document { $inc: { 'wallet.balance': delta,
    'stats.totalEarnings': delta }, $push: { 'wallet.transactions': t } } *)
Definition inc_balance_earnings_push (delta : Z) (t : Transaction) (u : User)
  : User :=
  mkUser (mkWallet (balance (wallet u) + delta) (transactions (wallet u) ++ [t]))
         (stats_totalEarnings u + delta).

(** The update document { 'availability.isAvailable': v } *)
Definition set_isAvailable (v : bool) (i : Item) : Item :=
  mkItem (item_owner i) (item_title i) v (item_dailyPrice i) (item_itemValue i)
         (item_depositPercentage i) (item_stats_bookings i)
         (item_stats_totalEarnings i).

(** The update document { $inc: { 'stats.bookings': 1,
    'stats.totalEarnings': e } } *)
Definition inc_item_stats (e : Z) (i : Item) : Item :=
  mkItem (item_owner i) (item_title i) (item_isAvailable i) (item_dailyPrice i)
         (item_itemValue i) (item_depositPercentage i)
         (item_stats_bookings i + 1) (item_stats_totalEarnings i + e).

(** ** The Booking model *)

(** bookingSchema.pre('save'): startDate >= endDate is an error. *)
Definition pre_save_ok (b : Booking) : bool := startDate b <? endDate b.

(** booking.save() of the document with _id [id]: runs the pre-save
    hook, then writes the document. *)
Definition Booking_save (id : ObjectId) (b : Booking) : Handler unit :=
  fun db =>
    if pre_save_ok b
    then (mkDb (users db) (items db) (<[id := b]> (bookings db)),
          Continue tt)
    else (db, Throw).

Definition set_pricing (p : Pricing) (b : Booking) : Booking :=
  mkBooking (item b) (borrower b) (lender b) (startDate b) (endDate b)
            (status b) p (payment b) (timeline b) (messages b).

Definition set_status (s : Status) (b : Booking) : Booking :=
  mkBooking (item b) (borrower b) (lender b) (startDate b) (endDate b)
            s (pricing b) (payment b) (timeline b) (messages b).

Definition set_payment (p : Payment) (b : Booking) : Booking :=
  mkBooking (item b) (borrower b) (lender b) (startDate b) (endDate b)
            (status b) (pricing b) p (timeline b) (messages b).

Definition set_endDate (d : Z) (b : Booking) : Booking :=
  mkBooking (item b) (borrower b) (lender b) (startDate b) d
            (status b) (pricing b) (payment b) (timeline b) (messages b).

(** bookingSchema.methods.calculatePricing.  The fee is
    Math.round(subtotal * 0.05): the double product, then the rounding to
    the nearest integer. *)
Definition calculatePricing (dailyPrice itemValue depositPercentage : Z)
    (b : Booking) : Booking :=
  let totalDays := Math_ceil_div (endDate b - startDate b) MS_PER_DAY in
  let subtotal := dailyPrice * totalDays in
  let depositAmount := Math_round_div (itemValue * depositPercentage) 100 in
  let platformFee := Math_round_div (times_0_05 subtotal) (2 ^ 56) in
  let totalAmount := subtotal + depositAmount + platformFee in
  let lenderEarnings := subtotal - platformFee in
  set_pricing
    (mkPricing dailyPrice totalDays subtotal depositAmount platformFee
               totalAmount lenderEarnings) b.

(** bookingSchema.methods.addTimelineEntry; [now] is new Date(). *)
Definition addTimelineEntry (now : Z) (st note : string) (b : Booking)
  : Booking :=
  mkBooking (item b) (borrower b) (lender b) (startDate b) (endDate b)
            (status b) (pricing b) (payment b)
            (timeline b ++ [mkTimelineEntry st note now]) (messages b).

(** new Booking({ item, borrower, lender, startDate, endDate }): the
    schema defaults fill the rest (status 'pending', the four payment
    flags false, empty timeline and messages); the pricing is absent
    until calculatePricing sets it, written here as zeros. *)
Definition new_Booking (it bor len : ObjectId) (s e : Z) : Booking :=
  mkBooking it bor len s e pending
            (mkPricing 0 0 0 0 0 0 0)
            (mkPayment false false false false) [] [].

(** booking.save() of a new document: the pre-save hook, then an insert,
    which fails on an _id already in the collection. *)
Definition Booking_save_new (id : ObjectId) (b : Booking) : Handler unit :=
  fun db =>
    if pre_save_ok b
    then match bookings db !! id with
         | None =>
             (mkDb (users db) (items db) (<[id := b]> (bookings db)), Continue tt)
         | Some _ => (db, Throw)
         end
    else (db, Throw).

(** Booking.findOne(filter): some document satisfying the filter, or
    null. *)
Definition Booking_findOne (p : Booking -> bool) : Handler (option Booking) :=
  fun db =>
    (db, Continue (snd <$> List.find (fun kb => p (snd kb))
                                     (map_to_list (bookings db)))).

(** if (doc): a document is truthy, null is not. *)
Definition truthy {A} (o : option A) : bool :=
  match o with
  | Some _ => true
  | None => false
  end.

(** ** bookingController.createBooking *)

Record CreateBookingReq := mkCreateBookingReq {
  cb_user : ObjectId;        (* req.user.id *)
  cb_valid : bool;           (* validationResult(req).isEmpty() *)
  cb_itemId : ObjectId;
  cb_startDate : Z;          (* new Date(startDate) *)
  cb_endDate : Z;            (* new Date(endDate) *)
  cb_newId : ObjectId;       (* the _id given to the new document *)
  cb_now : Z                 (* new Date() *)
}.

(** The filter of the date-conflict query:
    { item: itemId, status: { $in: ['approved', 'active'] },
      $or: [{ startDate: { $lte: endDate }, endDate: { $gte: startDate } }] } *)
Definition conflict_filter (itemId : ObjectId) (start end_ : Z) (b : Booking)
  : bool :=
  (item b =? itemId)%N
  && (Status_eqb (status b) approved || Status_eqb (status b) active)
  && ((startDate b <=? end_) && (endDate b >=? start)).

Definition createBooking (req : CreateBookingReq) : Db -> Db * Response :=
  try_catch
    (exec reject_if (negb (cb_valid req)) 400 "Validation failed" in
     let* oitem := Item_findById (cb_itemId req) in
     match oitem with
     | None => respond 404 "Item not found"
     | Some it =>
       (* populate('owner'), then item.owner._id *)
       let* oowner := User_findById (item_owner it) in
       exec deref oowner in
       exec reject_if (item_owner it =? cb_user req)%N
            400 "You cannot book your own item" in
       exec reject_if (negb (item_isAvailable it))
            400 "Item is not available for booking" in
       let* conflictingBooking :=
         Booking_findOne
           (conflict_filter (cb_itemId req) (cb_startDate req) (cb_endDate req)) in
       exec reject_if (truthy conflictingBooking)
            400 "Item is not available for the selected dates" in
       let booking :=
         calculatePricing (item_dailyPrice it) (item_itemValue it)
                          (item_depositPercentage it)
           (new_Booking (cb_itemId req) (cb_user req)
                        (item_owner it) (cb_startDate req) (cb_endDate req)) in
       let* oborrower := User_findById (cb_user req) in
       let* bor := deref oborrower in
       exec reject_if (balance (wallet bor) <? totalAmount (pricing booking))
            400 "Insufficient wallet balance" in
       let booking :=
         addTimelineEntry (cb_now req) "pending" "Booking request created"
                          booking in
       exec Booking_save_new (cb_newId req) booking in
       ret (Res 201 "Booking request created successfully")
     end)
    "Server error creating booking".

(** ** bookingController.updateBookingStatus *)

Record UpdateStatusReq := mkUpdateStatusReq {
  us_user : ObjectId;        (* req.user.id *)
  us_id : ObjectId;          (* req.params.id *)
  us_status : string;        (* req.body.status *)
  us_note : option string;   (* req.body.note *)
  us_now : Z                 (* new Date() *)
}.

(** note || fallback: the fallback when the note is absent or empty. *)
Definition or_default (note : option string) (fallback : string) : string :=
  match note with
  | Some s => if String.eqb s "" then fallback else s
  | None => fallback
  end.

Definition set_depositPaid (b : Booking) : Booking :=
  set_payment (mkPayment true (depositRefunded (payment b))
                         (finalPaymentMade (payment b)) (lenderPaid (payment b))) b.

(** payment.finalPaymentMade = payment.lenderPaid = payment.depositRefunded
    = true *)
Definition set_settled (b : Booking) : Booking :=
  set_payment (mkPayment (depositPaid (payment b)) true true true) b.

Definition updateBookingStatus (req : UpdateStatusReq) : Db -> Db * Response :=
  let st := us_status req in
  let now := us_now req in
  try_catch
    (let* ob := Booking_findById (us_id req) in
     match ob with
     | None => respond 404 "Booking not found"
     | Some booking =>
       (* populate('borrower'), populate('lender'), populate('item') *)
       let* p_borrower := User_findById (borrower booking) in
       let* p_lender := User_findById (lender booking) in
       let* p_item := Item_findById (item booking) in
       exec (if String.eqb st "approved" || String.eqb st "cancelled"
             then
               exec deref p_lender in
               reject_if (negb (lender booking =? us_user req)%N)
                 403 "Only the lender can approve or cancel bookings"
             else ret tt) in
       let* booking :=
         if String.eqb st "approved" && Status_eqb (status booking) pending
         then
           exec deref p_borrower in
           let* it := deref p_item in
           exec User_findByIdAndUpdate (borrower booking)
             (inc_balance_push (- totalAmount (pricing booking))
                (mkTransaction debit (totalAmount (pricing booking))
                   ("Booking payment for " +:+ item_title it) now
                   (Some (us_id req)))) in
           let booking := set_depositPaid booking in
           let booking := set_status approved booking in
           let booking :=
             addTimelineEntry now "approved"
               (or_default (us_note req) "Booking approved by lender") booking in
           exec Item_findByIdAndUpdate (item booking) (set_isAvailable false) in
           ret booking
         else if String.eqb st "cancelled"
         then
           exec (if depositPaid (payment booking)
                 then
                   exec deref p_borrower in
                   let* it := deref p_item in
                   User_findByIdAndUpdate (borrower booking)
                     (inc_balance_push (totalAmount (pricing booking))
                        (mkTransaction credit (totalAmount (pricing booking))
                           ("Refund for cancelled booking: " +:+ item_title it)
                           now (Some (us_id req))))
                 else ret tt) in
           let booking := set_status cancelled booking in
           exec deref p_item in
           exec Item_findByIdAndUpdate (item booking) (set_isAvailable true) in
           ret (addTimelineEntry now "cancelled"
                  (or_default (us_note req) "Booking cancelled") booking)
         else if String.eqb st "active" && Status_eqb (status booking) approved
         then
           let booking := set_status active booking in
           let booking :=
             addTimelineEntry now "active" "Item pickup completed" booking in
           exec deref p_item in
           exec Item_findByIdAndUpdate (item booking) (set_isAvailable false) in
           ret booking
         else if String.eqb st "completed" && Status_eqb (status booking) active
         then
           exec deref p_lender in
           let* it := deref p_item in
           exec User_findByIdAndUpdate (lender booking)
             (inc_balance_earnings_push (lenderEarnings (pricing booking))
                (mkTransaction credit (lenderEarnings (pricing booking))
                   ("Earnings from rental: " +:+ item_title it) now
                   (Some (us_id req)))) in
           exec deref p_borrower in
           exec User_findByIdAndUpdate (borrower booking)
             (inc_balance_push (depositAmount (pricing booking))
                (mkTransaction credit (depositAmount (pricing booking))
                   ("Deposit refund for: " +:+ item_title it) now
                   (Some (us_id req)))) in
           let booking := set_settled booking in
           let booking := set_status completed booking in
           let booking :=
             addTimelineEntry now "completed" "Booking completed successfully"
                              booking in
           exec Item_findByIdAndUpdate (item booking) (set_isAvailable true) in
           exec Item_findByIdAndUpdate (item booking)
                (inc_item_stats (lenderEarnings (pricing booking))) in
           ret booking
         else ret booking in
       exec Booking_save (us_id req) booking in
       ret (Res 200 ("Booking " +:+ st +:+ " successfully"))
     end)
    "Server error updating booking status".

(** ** bookingController.addBookingMessage *)

Record AddMessageReq := mkAddMessageReq {
  am_user : ObjectId;
  am_id : ObjectId;
  am_message : string;
  am_now : Z
}.

Definition push_message (m : Message) (b : Booking) : Booking :=
  mkBooking (item b) (borrower b) (lender b) (startDate b) (endDate b)
            (status b) (pricing b) (payment b) (timeline b) (messages b ++ [m]).

Definition addBookingMessage (req : AddMessageReq) : Db -> Db * Response :=
  try_catch
    (let* ob := Booking_findById (am_id req) in
     match ob with
     | None => respond 404 "Booking not found"
     | Some booking =>
       exec reject_if (negb (borrower booking =? am_user req)%N
                       && negb (lender booking =? am_user req)%N)
            403 "Not authorized to message in this booking" in
       let booking :=
         push_message (mkMessage (am_user req) (am_message req) (am_now req))
                      booking in
       exec Booking_save (am_id req) booking in
       ret (Res 200 "Message added successfully")
     end)
    "Server error adding message".

(** ** itemController.extendRentalPeriod *)

Record ExtendReq := mkExtendReq {
  er_user : ObjectId;          (* req.user.id *)
  er_bookingId : ObjectId;
  er_newEnd : Z;               (* new Date(newEndDate) *)
  er_newEndText : string;      (* newEnd.toDateString() *)
  er_now : Z
}.

(** The four += on booking.pricing, each one addition (exact on integers
    up to 2^53; on fractional amounts subtotal and totalAmount round
    separately, see [Doubles.extend_pricing]). *)
Definition extend_pricing (additionalDays additionalCost : Z) (p : Pricing)
  : Pricing :=
  mkPricing (dailyPrice p) (totalDays p + additionalDays)
            (subtotal p + additionalCost) (depositAmount p) (platformFee p)
            (totalAmount p + additionalCost) (lenderEarnings p + additionalCost).

Definition extendRentalPeriod (req : ExtendReq) : Db -> Db * Response :=
  let now := er_now req in
  try_catch
    (let* ob := Booking_findById (er_bookingId req) in
     match ob with
     | None => respond 404 "Booking not found"
     | Some booking =>
       (* populate('item'), populate('borrower') *)
       let* p_item := Item_findById (item booking) in
       let* p_borrower := User_findById (borrower booking) in
       let* it := deref p_item in
       exec reject_if (negb (item_owner it =? er_user req)%N)
            403 "Not authorized to extend this rental" in
       exec reject_if (negb (Status_eqb (status booking) approved
                             || Status_eqb (status booking) active))
            400 "Can only extend active bookings" in
       let newEnd := er_newEnd req in
       exec reject_if (newEnd <=? startDate booking)
            400 "New end date must be after start date" in
       exec reject_if (newEnd <=? endDate booking)
            400 "New end date must be after current end date" in
       let additionalDays :=
         Math_ceil_div (newEnd - endDate booking) MS_PER_DAY in
       let additionalCost := additionalDays * dailyPrice (pricing booking) in
       let* bor := deref p_borrower in
       exec reject_if (balance (wallet bor) <? additionalCost)
            400 "Borrower has insufficient balance for extension" in
       let booking := set_endDate newEnd booking in
       let booking :=
         set_pricing (extend_pricing additionalDays additionalCost
                                     (pricing booking)) booking in
       exec User_findByIdAndUpdate (borrower booking)
         (inc_balance_push (- additionalCost)
            (mkTransaction debit additionalCost
               ("Extension payment for " +:+ item_title it) now
               (Some (er_bookingId req)))) in
       let booking :=
         addTimelineEntry now "extended"
           ("Rental extended by " +:+ pretty additionalDays +:+ " days until "
            +:+ er_newEndText req) booking in
       exec Booking_save (er_bookingId req) booking in
       ret (Res 200 "Rental period extended successfully")
     end)
    "Server error extending rental period".

(** ** authController: register and addToWallet *)

(** The wallet a new User document gets from the schema defaults:
    balance 1000 ("Starting with 1000 for demo"), no transactions. *)
Definition STARTING_BALANCE : Z := 1000.

Definition new_User : User := mkUser (mkWallet STARTING_BALANCE []) 0.

(** The checks register makes before User.create (validation, email not
    taken, ID proof uploaded, address well formed) are one boolean of the
    request, and their several 400 responses one response. *)
Record RegisterReq := mkRegisterReq {
  rg_accepted : bool;
  rg_newId : ObjectId   (* the _id given to the new document *)
}.

(** User.create: an insert, which fails on an _id already in the
    collection. *)
Definition User_create (id : ObjectId) (u : User) : Handler unit :=
  fun db =>
    match users db !! id with
    | None => (mkDb (<[id := u]> (users db)) (items db) (bookings db),
               Continue tt)
    | Some _ => (db, Throw)
    end.

Definition register (req : RegisterReq) : Db -> Db * Response :=
  try_catch
    (exec reject_if (negb (rg_accepted req)) 400 "Validation failed" in
     exec User_create (rg_newId req) new_User in
     ret (Res 201 "User registered successfully"))
    "Server error during registration".

Record AddToWalletReq := mkAddToWalletReq {
  aw_user : ObjectId;
  aw_amount : Z;
  aw_now : Z
}.

Definition addToWallet (req : AddToWalletReq) : Db -> Db * Response :=
  let amount := aw_amount req in
  try_catch
    (exec reject_if ((amount =? 0) || (amount <=? 0))
          400 "Amount must be a positive number" in
     exec User_findByIdAndUpdate (aw_user req)
       (inc_balance_push amount
          (mkTransaction credit amount ("Wallet top-up of ₹" +:+ pretty amount)
                         (aw_now req) None)) in
     (* user.wallet.balance on the document findByIdAndUpdate returned *)
     let* ouser := User_findById (aw_user req) in
     exec deref ouser in
     ret (Res 200 ("₹" +:+ pretty amount +:+ " added to wallet successfully")))
    "Server error adding to wallet".

(** ** adminController *)

(** The refund a resolved complaint pays (updateComplaint, resolution
    action 'refund' with a truthy amount): a credit to the complainant. *)
Record ComplaintRefundReq := mkComplaintRefundReq {
  cr_complainant : ObjectId;
  cr_amount : Z;
  cr_complaintId : string;
  cr_now : Z
}.

Definition complaintRefund (req : ComplaintRefundReq) : Db -> Db * Response :=
  try_catch
    (exec (if negb (cr_amount req =? 0)
           then User_findByIdAndUpdate (cr_complainant req)
                  (inc_balance_push (cr_amount req)
                     (mkTransaction credit (cr_amount req)
                        ("Refund for complaint #" +:+ cr_complaintId req)
                        (cr_now req) None))
           else ret tt) in
     ret (Res 200 "Complaint updated successfully"))
    "Server error updating complaint".

(** The Booking.updateMany of toggleUserSuspension: every pending or
    approved booking of the user (as borrower or lender) is set to
    'cancelled' and gets a timeline entry.  [su_reason] is the text the
    template literal puts after the colon. *)
Record SuspendReq := mkSuspendReq {
  su_user : ObjectId;
  su_reason : string;
  su_now : Z
}.

Definition suspend_update (req : SuspendReq) (b : Booking) : Booking :=
  if ((borrower b =? su_user req)%N || (lender b =? su_user req)%N)
     && (Status_eqb (status b) pending || Status_eqb (status b) approved)
  then addTimelineEntry (su_now req) "cancelled"
         ("Cancelled due to user suspension: " +:+ su_reason req)
         (set_status cancelled b)
  else b.

(** The update alone, as the handler runs it when it suspends.  It is
    the whole of what toggleUserSuspension can write to the three
    collections of [Db]; the handler itself, with its two refusals and
    the toggle of the flag, is [toggleUserSuspension] below. *)
Definition suspendUser (req : SuspendReq) : Db -> Db * Response :=
  fun db =>
    (mkDb (users db) (items db) (suspend_update req <$> bookings db),
     Res 200 "User suspended successfully").

(** The two fields of a User document that toggleUserSuspension reads
    beside the wallet: whether role is 'admin', and isSuspended. *)
Record Account := mkAccount {
  role_is_admin : bool;
  isSuspended : bool
}.

(** The schema defaults: role 'user', isSuspended false. *)
Definition default_Account : Account := mkAccount false false.

(** The database together with the account fields of its users; a user
    with no entry has the schema defaults. *)
Record AdminDb := mkAdminDb {
  accounts : gmap N Account;
  store : Db
}.

Definition account_of (st : AdminDb) (id : ObjectId) : Account :=
  default default_Account (accounts st !! id).

(** adminController.toggleUserSuspension *)
Definition toggleUserSuspension (req : SuspendReq) (st : AdminDb)
  : AdminDb * Response :=
  match users (store st) !! su_user req with
  | None => (st, Res 404 "User not found")
  | Some _ =>
      let user := account_of st (su_user req) in
      if role_is_admin user
      then (st, Res 400 "Cannot suspend admin users")
      else
        (* user.isSuspended = !user.isSuspended; await user.save() *)
        let user := mkAccount (role_is_admin user) (negb (isSuspended user)) in
        let accounts' := <[su_user req := user]> (accounts st) in
        if isSuspended user
        then (mkAdminDb accounts' (fst (suspendUser req (store st))),
              Res 200 "User suspended successfully")
        else (mkAdminDb accounts' (store st),
              Res 200 "User unsuspended successfully")
  end.

(** ** The system as a whole *)

(** The requests that write a wallet or a booking; [ReqItems] stands for
    the item controller's own writes (createItem, updateItem, deleteItem)
    and replaces the item collection by any other; [ReqSuspend] is the
    bulk cancellation of a suspension, which toggleUserSuspension runs or
    skips, so that the databases the handlers can produce are among the
    ones [run] produces. *)
Inductive Request :=
| ReqRegister (r : RegisterReq)
| ReqAddToWallet (r : AddToWalletReq)
| ReqCreateBooking (r : CreateBookingReq)
| ReqUpdateStatus (r : UpdateStatusReq)
| ReqAddMessage (r : AddMessageReq)
| ReqExtend (r : ExtendReq)
| ReqComplaintRefund (r : ComplaintRefundReq)
| ReqSuspend (r : SuspendReq)
| ReqItems (new_items : gmap N Item).

Definition handle (rq : Request) : Db -> Db * Response :=
  match rq with
  | ReqRegister r => register r
  | ReqAddToWallet r => addToWallet r
  | ReqCreateBooking r => createBooking r
  | ReqUpdateStatus r => updateBookingStatus r
  | ReqAddMessage r => addBookingMessage r
  | ReqExtend r => extendRentalPeriod r
  | ReqComplaintRefund r => complaintRefund r
  | ReqSuspend r => suspendUser r
  | ReqItems its =>
      fun db => (mkDb (users db) its (bookings db), Res 200 "OK")
  end.

(** The database after a sequence of requests. *)
Fixpoint run (rqs : list Request) (db : Db) : Db :=
  match rqs with
  | [] => db
  | rq :: rest => run rest (fst (handle rq db))
  end.

Definition empty_db : Db := mkDb ∅ ∅ ∅.

Definition reachable (db : Db) : Prop := exists rqs, run rqs empty_db = db.

(** ** The ledger read off a transaction history *)

Definition TxType_eqb (a b : TxType) : bool :=
  match a, b with
  | credit, credit | debit, debit => true
  | _, _ => false
  end.

(** The sum of the amounts of the transactions of one type. *)
Fixpoint sum_of (ty : TxType) (l : list Transaction) : Z :=
  match l with
  | [] => 0
  | t :: rest =>
      (if TxType_eqb (tx_type t) ty then tx_amount t else 0) + sum_of ty rest
  end.

(** sum(credit amounts) - sum(debit amounts) *)
Definition ledger_sum (l : list Transaction) : Z :=
  sum_of credit l - sum_of debit l.

(** ** The properties stated of the data *)

Definition pricing_ok (p : Pricing) : Prop :=
  totalAmount p = subtotal p + depositAmount p + platformFee p
  /\ lenderEarnings p = subtotal p - platformFee p.

Definition wallet_ok (u : User) : Prop :=
  balance (wallet u) = STARTING_BALANCE + ledger_sum (transactions (wallet u)).

Definition all_bookings (P : Booking -> Prop) (db : Db) : Prop :=
  forall id b, bookings db !! id = Some b -> P b.

Definition all_users (P : User -> Prop) (db : Db) : Prop :=
  forall id u, users db !! id = Some u -> P u.

(** ** Names for what the handlers write *)

(** The wallet transaction pushed when a booking is approved. *)
Definition payment_tx (req : UpdateStatusReq) (b : Booking) (it : Item)
  : Transaction :=
  mkTransaction debit (totalAmount (pricing b))
    ("Booking payment for " +:+ item_title it) (us_now req) (Some (us_id req)).

(** The booking document saved when a booking is approved. *)
Definition approved_booking (req : UpdateStatusReq) (b : Booking) : Booking :=
  addTimelineEntry (us_now req) "approved"
    (or_default (us_note req) "Booking approved by lender")
    (set_status approved (set_depositPaid b)).

(** The wallet transaction pushed when a paid booking is cancelled. *)
Definition refund_tx (req : UpdateStatusReq) (b : Booking) (it : Item)
  : Transaction :=
  mkTransaction credit (totalAmount (pricing b))
    ("Refund for cancelled booking: " +:+ item_title it) (us_now req)
    (Some (us_id req)).

(** The booking document saved when a booking is cancelled. *)
Definition cancelled_booking (req : UpdateStatusReq) (b : Booking) : Booking :=
  addTimelineEntry (us_now req) "cancelled"
    (or_default (us_note req) "Booking cancelled") (set_status cancelled b).

(** The booking createBooking prices: new Booking(..) after
    calculatePricing. *)
Definition priced_booking (req : CreateBookingReq) (it : Item) : Booking :=
  calculatePricing (item_dailyPrice it) (item_itemValue it)
                   (item_depositPercentage it)
    (new_Booking (cb_itemId req) (cb_user req) (item_owner it)
                 (cb_startDate req) (cb_endDate req)).

(** additionalDays and additionalCost of an extension request. *)
Definition additionalDays (req : ExtendReq) (b : Booking) : Z :=
  Math_ceil_div (er_newEnd req - endDate b) MS_PER_DAY.

Definition additionalCost (req : ExtendReq) (b : Booking) : Z :=
  additionalDays req b * dailyPrice (pricing b).

(** The wallet transaction pushed by an extension. *)
Definition extension_tx (req : ExtendReq) (b : Booking) (it : Item)
  : Transaction :=
  mkTransaction debit (additionalCost req b)
    ("Extension payment for " +:+ item_title it) (er_now req)
    (Some (er_bookingId req)).

(** The booking saved by an extension. *)
Definition extended_booking (req : ExtendReq) (b : Booking) : Booking :=
  addTimelineEntry (er_now req) "extended"
    ("Rental extended by " +:+ pretty (additionalDays req b) +:+ " days until "
     +:+ er_newEndText req)
    (set_pricing
       (extend_pricing (additionalDays req b) (additionalCost req b) (pricing b))
       (set_endDate (er_newEnd req) b)).

(** The response codes and messages the specification names as error
    kinds. *)
Definition Forbidden_approve_cancel : Response :=
  Res 403 "Only the lender can approve or cancel bookings".
Definition InsufficientFunds : Response :=
  Res 400 "Insufficient wallet balance".
Definition DateConflict : Response :=
  Res 400 "Item is not available for the selected dates".
Definition Extended : Response :=
  Res 200 "Rental period extended successfully".
Definition InsufficientFunds_extension : Response :=
  Res 400 "Borrower has insufficient balance for extension".

(** The requests createBooking lets through to the date check: valid,
    for an item that exists with its owner, that is not the requester's
    own, and that is flagged available. *)
Definition passes_entry_checks (req : CreateBookingReq) (db : Db) (it : Item)
  : Prop :=
  cb_valid req = true
  /\ items db !! cb_itemId req = Some it
  /\ is_Some (users db !! item_owner it)
  /\ item_owner it <> cb_user req
  /\ item_isAvailable it = true.

(** The conflict rule as the specification words it: some existing
    booking on the same item with status approved or active whose range
    overlaps the proposed one, boundaries included. *)
Definition spec_date_conflict (req : CreateBookingReq) (db : Db) : Prop :=
  exists id b,
    bookings db !! id = Some b
    /\ item b = cb_itemId req
    /\ (status b = approved \/ status b = active)
    /\ startDate b <= cb_endDate req
    /\ endDate b >= cb_startDate req.

(** ** A worked scenario

    User 1 lists a drill (item 10); users 2 and 3 each request it
    (bookings 100 and 101); user 1 approves booking 100, hands the drill
    over, and the rental completes. *)

Definition DAY : Z := MS_PER_DAY.

Definition drill : Item := mkItem 1%N "Drill" true 70 1000 20 0 0.

Definition scn_setup : list Request :=
  [ ReqRegister (mkRegisterReq true 1%N);
    ReqRegister (mkRegisterReq true 2%N);
    ReqRegister (mkRegisterReq true 3%N);
    ReqItems {[ 10%N := drill ]};
    ReqCreateBooking (mkCreateBookingReq 2%N true 10%N 0 (5 * DAY) 100%N 1);
    ReqCreateBooking
      (mkCreateBookingReq 3%N true 10%N (2 * DAY) (4 * DAY) 101%N 2) ].

Definition approve_100 : UpdateStatusReq :=
  mkUpdateStatusReq 1%N 100%N "approved" None 3.
Definition pickup_100 : UpdateStatusReq :=
  mkUpdateStatusReq 2%N 100%N "active" None 4.
Definition complete_100 : UpdateStatusReq :=
  mkUpdateStatusReq 2%N 100%N "completed" None 5.
Definition cancel_100 : UpdateStatusReq :=
  mkUpdateStatusReq 1%N 100%N "cancelled" None 6.
Definition cancel_101 : UpdateStatusReq :=
  mkUpdateStatusReq 1%N 101%N "cancelled" None 6.
Definition extend_100 : ExtendReq :=
  mkExtendReq 1%N 100%N (6 * DAY + 1) "Wed Jan 07 1970" 4.

Definition scn_to_approved : list Request :=
  scn_setup ++ [ReqUpdateStatus approve_100].
Definition scn_to_active : list Request :=
  scn_to_approved ++ [ReqUpdateStatus pickup_100].
Definition scn_to_completed : list Request :=
  scn_to_active ++ [ReqUpdateStatus complete_100].
Definition scn_to_extended : list Request :=
  scn_to_active ++ [ReqExtend extend_100].

Definition scn_pending : Db := run scn_setup empty_db.
Definition scn_approved : Db := run scn_to_approved empty_db.
Definition scn_active : Db := run scn_to_active empty_db.
Definition scn_completed : Db := run scn_to_completed empty_db.
Definition scn_extended : Db := run scn_to_extended empty_db.

(** Scenario A of the specification: a borrower with balance 1000 asks
    for five days of an item priced 100 a day, worth 10000, with a deposit
    of 20 percent. *)
Definition camera : Item := mkItem 1%N "Camera" true 100 10000 20 0 0.

Definition scn_A : Db :=
  run [ ReqRegister (mkRegisterReq true 1%N);
        ReqRegister (mkRegisterReq true 2%N);
        ReqItems {[ 11%N := camera ]} ] empty_db.

Definition request_A : CreateBookingReq :=
  mkCreateBookingReq 2%N true 11%N 0 (5 * DAY) 200%N 1.

(** The scenario after booking 100 is approved and booking 101 is
    cancelled: the drill is flagged available again. *)
Definition scn_reopened : Db :=
  fst (updateBookingStatus cancel_101 scn_approved).

(** A request for the drill from the day booking 100 ends. *)
Definition request_touching : CreateBookingReq :=
  mkCreateBookingReq 3%N true 10%N (5 * DAY) (6 * DAY) 102%N 7.

(** The documents of the scenario, read from its databases. *)
Definition no_booking : Booking := new_Booking 0%N 0%N 0%N 0 0.

Definition scn_b100_pending : Booking :=
  Eval vm_compute in default no_booking (bookings scn_pending !! 100%N).
Definition scn_b100_active : Booking :=
  Eval vm_compute in default no_booking (bookings scn_active !! 100%N).
Definition scn_b100_completed : Booking :=
  Eval vm_compute in default no_booking (bookings scn_completed !! 100%N).

(** The answer to a booking request that is stored. *)
Definition Created : Response :=
  Res 201 "Booking request created successfully".

(** ** More names for what the handlers write *)

(** The booking document createBooking saves. *)
Definition created_booking (req : CreateBookingReq) (it : Item) : Booking :=
  addTimelineEntry (cb_now req) "pending" "Booking request created"
                   (priced_booking req it).

(** The booking document saved at pickup. *)
Definition active_booking (req : UpdateStatusReq) (b : Booking) : Booking :=
  addTimelineEntry (us_now req) "active" "Item pickup completed"
                   (set_status active b).

(** The wallet transaction pushed to the lender at completion. *)
Definition earnings_tx (req : UpdateStatusReq) (b : Booking) (it : Item)
  : Transaction :=
  mkTransaction credit (lenderEarnings (pricing b))
    ("Earnings from rental: " +:+ item_title it) (us_now req)
    (Some (us_id req)).

(** The wallet transaction pushed to the borrower at completion. *)
Definition deposit_refund_tx (req : UpdateStatusReq) (b : Booking) (it : Item)
  : Transaction :=
  mkTransaction credit (depositAmount (pricing b))
    ("Deposit refund for: " +:+ item_title it) (us_now req)
    (Some (us_id req)).

(** The booking document saved at completion. *)
Definition completed_booking (req : UpdateStatusReq) (b : Booking) : Booking :=
  addTimelineEntry (us_now req) "completed" "Booking completed successfully"
                   (set_status completed (set_settled b)).

(** The same status request sent by another user. *)
Definition sent_by (u : ObjectId) (req : UpdateStatusReq) : UpdateStatusReq :=
  mkUpdateStatusReq u (us_id req) (us_status req) (us_note req) (us_now req).

(** The wallet transaction pushed by a top-up. *)
Definition topup_tx (req : AddToWalletReq) : Transaction :=
  mkTransaction credit (aw_amount req)
    ("Wallet top-up of ₹" +:+ pretty (aw_amount req)) (aw_now req) None.

(** How a stored booking may differ from an earlier state of itself:
    the parties, the item, the start date, the daily price, the deposit
    and the platform fee are the same; the end date is not earlier; a
    payment flag that was set is set; timeline and messages have the
    earlier ones as a prefix. *)
Definition booking_evolves (b b' : Booking) : Prop :=
  item b' = item b /\ borrower b' = borrower b /\ lender b' = lender b
  /\ startDate b' = startDate b /\ endDate b <= endDate b'
  /\ dailyPrice (pricing b') = dailyPrice (pricing b)
  /\ depositAmount (pricing b') = depositAmount (pricing b)
  /\ platformFee (pricing b') = platformFee (pricing b)
  /\ (depositPaid (payment b) = true -> depositPaid (payment b') = true)
  /\ (depositRefunded (payment b) = true -> depositRefunded (payment b') = true)
  /\ (finalPaymentMade (payment b) = true
      -> finalPaymentMade (payment b') = true)
  /\ (lenderPaid (payment b) = true -> lenderPaid (payment b') = true)
  /\ timeline b `prefix_of` timeline b'
  /\ messages b `prefix_of` messages b'.

(** A wallet history only grows at its end, and the balance moves by
    the credits minus the debits of what is added. *)
Definition user_evolves (u u' : User) : Prop :=
  exists added,
    transactions (wallet u') = transactions (wallet u) ++ added
    /\ balance (wallet u') = balance (wallet u) + ledger_sum added.

(** Every booking of [db0] is still stored in [db], evolved. *)
Definition bookings_evolved (db0 db : Db) : Prop :=
  forall id b, bookings db0 !! id = Some b ->
    exists b', bookings db !! id = Some b' /\ booking_evolves b b'.

(** Every user of [db0] is still stored in [db], evolved. *)
Definition users_evolved (db0 db : Db) : Prop :=
  forall id u, users db0 !! id = Some u ->
    exists u', users db !! id = Some u' /\ user_evolves u u'.

(** ** A second scenario: one borrower, two items

    User 1 lists a drill (item 10) and a saw (item 12); user 2 requests
    both (bookings 100 and 103), each within the balance of 1000; user 1
    approves booking 100. *)
Definition saw : Item := mkItem 1%N "Saw" true 70 1000 20 0 0.

Definition scn2_setup : list Request :=
  [ ReqRegister (mkRegisterReq true 1%N);
    ReqRegister (mkRegisterReq true 2%N);
    ReqRegister (mkRegisterReq true 3%N);
    ReqItems {[ 10%N := drill; 12%N := saw ]};
    ReqCreateBooking (mkCreateBookingReq 2%N true 10%N 0 (5 * DAY) 100%N 1);
    ReqCreateBooking (mkCreateBookingReq 2%N true 12%N 0 (5 * DAY) 103%N 2);
    ReqUpdateStatus approve_100 ].

Definition scn2 : Db := run scn2_setup empty_db.

Definition approve_103 : UpdateStatusReq :=
  mkUpdateStatusReq 1%N 103%N "approved" None 4.

Definition scn2_b103 : Booking :=
  Eval vm_compute in default no_booking (bookings scn2 !! 103%N).
Definition scn2_borrower : User :=
  Eval vm_compute in default new_User (users scn2 !! 2%N).

Definition scn_b100_approved : Booking :=
  Eval vm_compute in default no_booking (bookings scn_approved !! 100%N).
Definition scn_drill_approved : Item :=
  Eval vm_compute in default drill (items scn_approved !! 10%N).
Definition scn_borrower_approved : User :=
  Eval vm_compute in default new_User (users scn_approved !! 2%N).
Definition scn_b101_pending : Booking :=
  Eval vm_compute in default no_booking (bookings scn_pending !! 101%N).

Definition approve_101 : UpdateStatusReq :=
  mkUpdateStatusReq 1%N 101%N "approved" None 5.

(** A request with the end date equal to the start date. *)
Definition request_empty_range : CreateBookingReq :=
  mkCreateBookingReq 3%N true 12%N (2 * DAY) (2 * DAY) 104%N 8.

(** The five-day rental of the specification's example. *)
Definition five_days : Booking := new_Booking 11%N 2%N 1%N 0 (5 * DAY).

(** The payment flags a booking has in each status: none while
    pending; depositPaid alone while approved or active; all four when
    completed; a cancelled booking has the flags of the status it was
    cancelled from, one of these three. *)
Definition flags_follow_status (b : Booking) : Prop :=
  match status b with
  | pending => payment b = mkPayment false false false false
  | approved | active => payment b = mkPayment true false false false
  | completed => payment b = mkPayment true true true true
  | cancelled =>
      payment b = mkPayment false false false false
      \/ payment b = mkPayment true false false false
      \/ payment b = mkPayment true true true true
  end.

(** The approved booking 100 with its borrower, user 2, not suspended,
    and the request that suspends that user. *)
Definition scn_admin : AdminDb := mkAdminDb ∅ scn_approved.

Definition suspend_2 : SuspendReq := mkSuspendReq 2%N "fraud" 9.

(** ** The same arithmetic on binary64 numbers

    The Numbers of the source are doubles.  Here the arithmetic of
    calculatePricing, of the extension and of the wallet update is
    written on Rocq's binary64 numbers, operation by operation, for the
    prices and amounts that are not integers. *)

Module Doubles.

Local Open Scope float_scope.

Definition TWO52 : float := 4503599627370496.

(** The integer nearest to x (ties to even), for |x| < 2^52: adding
    and subtracting 2^52 rounds at the unit.  Larger doubles are
    integers already. *)
Definition nearest_integer (x : float) : float :=
  if abs x <? TWO52
  then if 0 <=? x then (x + TWO52) - TWO52 else (x - TWO52) + TWO52
  else x.

Definition Math_floor (x : float) : float :=
  let r := nearest_integer x in
  if x <? r then r - 1 else r.

Definition Math_ceil (x : float) : float :=
  let r := nearest_integer x in
  if r <? x then r + 1 else r.

(** Math.round: the nearest integer, a half rounding up. *)
Definition Math_round (x : float) : float :=
  let f := Math_floor x in
  if 0.5 <=? x - f then f + 1 else f.

Record Pricing := mkPricing {
  dailyPrice : float;
  totalDays : float;
  subtotal : float;
  depositAmount : float;
  platformFee : float;
  totalAmount : float;
  lenderEarnings : float
}.

(** bookingSchema.methods.calculatePricing; the dates are epoch
    milliseconds. *)
Definition calculatePricing
    (dailyPrice itemValue depositPercentage startDate endDate : float)
  : Pricing :=
  let totalDays := Math_ceil ((endDate - startDate) / (1000 * 60 * 60 * 24)) in
  let subtotal := dailyPrice * totalDays in
  let depositAmount := Math_round ((itemValue * depositPercentage) / 100) in
  let platformFee := Math_round (subtotal * 0.05) in
  let totalAmount := subtotal + depositAmount + platformFee in
  let lenderEarnings := subtotal - platformFee in
  mkPricing dailyPrice totalDays subtotal depositAmount platformFee
            totalAmount lenderEarnings.

(** extendRentalPeriod, from additionalDays to the four += . *)
Definition extend_pricing (newEnd endDate : float) (p : Pricing) : Pricing :=
  let additionalDays := Math_ceil ((newEnd - endDate) / (1000 * 60 * 60 * 24)) in
  let additionalCost := additionalDays * dailyPrice p in
  mkPricing (dailyPrice p) (totalDays p + additionalDays)
            (subtotal p + additionalCost) (depositAmount p) (platformFee p)
            (totalAmount p + additionalCost) (lenderEarnings p + additionalCost).

(** The wallet: the balance and the type and amount of each
    transaction. *)
Record Wallet := mkWallet {
  balance : float;
  transactions : list (TxType * float)
}.

(** { $inc: { 'wallet.balance': delta }, $push: { 'wallet.transactions': t } } *)
Definition inc_balance_push (delta : float) (t : TxType * float) (w : Wallet)
  : Wallet :=
  mkWallet (balance w + delta) (transactions w ++ [t]).

(** addToWallet past its check of the amount. *)
Definition addToWallet (amount : float) (w : Wallet) : Wallet :=
  inc_balance_push amount (credit, amount) w.

(** The sum of the amounts of one type, added in the order of the
    history. *)
Definition sum_of (ty : TxType) (l : list (TxType * float)) : float :=
  fold_left (fun acc t => if TxType_eqb (fst t) ty then acc + snd t else acc)
            l 0.

(** A daily price of 99.99 for one day, item value 1000 at 20 percent;
    then an extension by two days. *)
Definition priced_99_99 : Pricing := calculatePricing 99.99 1000 20 0 86400000.

Definition extended_99_99 : Pricing :=
  extend_pricing (3 * 86400000) 86400000 priced_99_99.

(** A new wallet topped up by 0.1 and by 0.2. *)
Definition topped_up : Wallet :=
  addToWallet 0.2 (addToWallet 0.1 (mkWallet 1000 [])).

(** The wallet updates of updateBookingStatus: the debit of an approval,
    the refund of a cancellation, the deposit refund of a completion. *)
Definition approval_debit (p : Pricing) (w : Wallet) : Wallet :=
  inc_balance_push (- totalAmount p) (debit, totalAmount p) w.

Definition cancellation_refund (p : Pricing) (w : Wallet) : Wallet :=
  inc_balance_push (totalAmount p) (credit, totalAmount p) w.

Definition deposit_refund (p : Pricing) (w : Wallet) : Wallet :=
  inc_balance_push (depositAmount p) (credit, depositAmount p) w.

(** Rentals of five and of seven days at 1.01 a day, item value 1000 at
    20 percent. *)
Definition priced_1_01_five : Pricing :=
  calculatePricing 1.01 1000 20 0 (5 * 86400000).

Definition priced_1_01_seven : Pricing :=
  calculatePricing 1.01 1000 20 0 (7 * 86400000).

End Doubles.

(** [hoare Inv m Q]: from a database with the property [Inv], the
    handler [m] stops in a database with the property [Inv], whether it
    continues, responds or throws, and [Q] holds of the value it continues
    with. *)
Definition hoare (Inv : Db -> Prop) {A} (m : Handler A) (Q : A -> Prop)
  : Prop :=
  forall db, Inv db ->
    Inv (fst (m db)) /\ forall a, snd (m db) = Continue a -> Q a.

(** * Reasoning about handlers *)

Lemma sum_of_app ty l1 l2 : sum_of ty (l1 ++ l2) = sum_of ty l1 + sum_of ty l2.
Proof.
  induction l1 as [|t l1 IH]; simpl; [lia|]. rewrite IH. lia.
Qed.

Lemma ledger_sum_app l t :
  ledger_sum (l ++ [t])
  = ledger_sum l + match tx_type t with
                   | credit => tx_amount t
                   | debit => - tx_amount t
                   end.
Proof.
  unfold ledger_sum. rewrite !sum_of_app. simpl.
  destruct (tx_type t); simpl; lia.
Qed.

Section Hoare.
Variable Inv : Db -> Prop.

Lemma hoare_ret {A} (a : A) (Q : A -> Prop) : Q a -> hoare Inv (ret a) Q.
Proof. intros HQ db HI. split; [exact HI|]. intros a' [= <-]. exact HQ. Qed.

Lemma hoare_respond {A} c msg (Q : A -> Prop) : hoare Inv (respond c msg) Q.
Proof. intros db HI. split; [exact HI|]. intros a [=]. Qed.

Lemma hoare_throw {A} (Q : A -> Prop) : hoare Inv throw Q.
Proof. intros db HI. split; [exact HI|]. intros a [=]. Qed.

Lemma hoare_bind {A B} (m : Handler A) (k : A -> Handler B) Q R :
  hoare Inv m Q -> (forall a, Q a -> hoare Inv (k a) R) ->
  hoare Inv (bind m k) R.
Proof.
  intros Hm Hk db HI. unfold bind.
  destruct (Hm db HI) as [HI' HQ].
  destruct (m db) as [db' [a| r |]]; simpl in *.
  - exact (Hk a (HQ a eq_refl) db' HI').
  - split; [exact HI'|]. intros b [=].
  - split; [exact HI'|]. intros b [=].
Qed.

Lemma hoare_weaken {A} (m : Handler A) (Q R : A -> Prop) :
  hoare Inv m Q -> (forall a, Q a -> R a) -> hoare Inv m R.
Proof.
  intros Hm HQR db HI. destruct (Hm db HI) as [HI' HQ].
  split; [exact HI'|]. intros a Ha. apply HQR, HQ, Ha.
Qed.

Lemma hoare_reject_if c code msg : hoare Inv (reject_if c code msg) (fun _ => True).
Proof.
  unfold reject_if. destruct c; [apply hoare_respond | now apply hoare_ret].
Qed.

Lemma hoare_deref {A} (o : option A) : hoare Inv (deref o) (fun a => o = Some a).
Proof.
  destruct o as [a|]; simpl; [now apply hoare_ret | apply hoare_throw].
Qed.

Lemma hoare_try_catch body msg db :
  hoare Inv body (fun _ => True) -> Inv db -> Inv (fst (try_catch body msg db)).
Proof.
  intros Hb HI. unfold try_catch. destruct (Hb db HI) as [HI' _].
  destruct (body db) as [db' [r| r |]]; exact HI'.
Qed.
End Hoare.

Lemma hoare_skip Inv {A} (o : option A) : hoare Inv (deref o) (fun _ => True).
Proof. eapply hoare_weaken; [apply hoare_deref | trivial]. Qed.

(** The steps whose rule needs no side condition. *)
Ltac hoare_simple :=
  first [ apply hoare_respond | apply hoare_throw | apply hoare_reject_if
        | apply hoare_skip | (apply hoare_ret; exact I) ].

(** [a <- m; k] where nothing is to be remembered of [a]. *)
Ltac hoare_seq :=
  cbv zeta; eapply hoare_bind with (Q := fun _ => True); [ | intros ? _ ].

(** ** Properties of every stored booking *)

Section BookingInvariant.
Variable P : Booking -> Prop.
Hypothesis P_set_status : forall s b, P b -> P (set_status s b).
Hypothesis P_set_payment : forall p b, P b -> P (set_payment p b).
Hypothesis P_addTimelineEntry :
  forall now s n b, P b -> P (addTimelineEntry now s n b).
Hypothesis P_push_message : forall m b, P b -> P (push_message m b).
Hypothesis P_new :
  forall dp iv pct it bor len s e,
    s < e -> P (calculatePricing dp iv pct (new_Booking it bor len s e)).
Hypothesis P_extend :
  forall ad ac newEnd b,
    P b -> startDate b < newEnd ->
    P (set_pricing (extend_pricing ad ac (pricing (set_endDate newEnd b)))
                   (set_endDate newEnd b)).

Local Abbreviation Inv := (all_bookings P).

Lemma hoare_Booking_findById id :
  hoare Inv (Booking_findById id) (fun ob => forall b, ob = Some b -> P b).
Proof.
  intros db HI. split; [exact HI|]. simpl. intros ob [= <-] b Hb.
  exact (HI id b Hb).
Qed.

Lemma hoare_Booking_save id b :
  (pre_save_ok b = true -> P b) ->
  hoare Inv (Booking_save id b) (fun _ => True).
Proof.
  intros HP db HI. unfold Booking_save.
  destruct (pre_save_ok b); simpl; [|auto].
  split; [|trivial]. intros i b'. simpl. rewrite lookup_insert.
  case_decide; [intros [= <-]; auto | apply HI].
Qed.

Lemma hoare_Booking_save_new id b :
  (pre_save_ok b = true -> P b) ->
  hoare Inv (Booking_save_new id b) (fun _ => True).
Proof.
  intros HP db HI. unfold Booking_save_new.
  destruct (pre_save_ok b); simpl; [|auto].
  destruct (bookings db !! id); simpl; [auto|].
  split; [|trivial]. intros i b'. simpl. rewrite lookup_insert.
  case_decide; [intros [= <-]; auto | apply HI].
Qed.

(** A handler that leaves the booking collection as it is. *)
Lemma hoare_keeps_bookings {A} (m : Handler A) :
  (forall db, bookings (fst (m db)) = bookings db) ->
  hoare Inv m (fun _ => True).
Proof.
  intros Hm db HI. split; [|trivial]. intros id b. rewrite Hm. apply HI.
Qed.

Ltac bstep :=
  first [ hoare_simple
        | (apply hoare_keeps_bookings; reflexivity)
        | (apply hoare_keeps_bookings; intros ?; unfold User_create;
           case_match; reflexivity) ].

Ltac stable :=
  unfold set_depositPaid, set_settled;
  repeat first [ apply P_addTimelineEntry | apply P_set_status
               | apply P_set_payment | apply P_push_message ];
  assumption.

Lemma createBooking_bookings req db :
  Inv db -> Inv (fst (createBooking req db)).
Proof.
  intros HI. unfold createBooking. apply hoare_try_catch; [|exact HI].
  hoare_seq; [bstep|].
  hoare_seq; [bstep|].
  destruct a0 as [it|]; [|bstep].
  do 6 (hoare_seq; [bstep|]).
  do 3 (hoare_seq; [bstep|]).
  hoare_seq; [|bstep].
  apply hoare_Booking_save_new. unfold pre_save_ok. simpl.
  intros Hlt. apply P_addTimelineEntry, P_new. lia.
Qed.

Lemma updateBookingStatus_bookings req db :
  Inv db -> Inv (fst (updateBookingStatus req db)).
Proof.
  intros HI. unfold updateBookingStatus. apply hoare_try_catch; [|exact HI].
  eapply hoare_bind; [apply hoare_Booking_findById|].
  intros [b|] Hb; [|bstep]. specialize (Hb b eq_refl).
  do 3 (hoare_seq; [bstep|]).
  hoare_seq.
  { destruct (_ || _); [|bstep]. hoare_seq; bstep. }
  eapply hoare_bind with (Q := P).
  - repeat match goal with
           | |- hoare _ (if ?c then _ else _) _ => destruct c
           end.
    + do 4 (hoare_seq; [bstep|]). apply hoare_ret. stable.
    + hoare_seq.
      { destruct (depositPaid _); [|bstep]. do 2 (hoare_seq; [bstep|]). bstep. }
      do 2 (hoare_seq; [bstep|]). apply hoare_ret. stable.
    + do 2 (hoare_seq; [bstep|]). apply hoare_ret. stable.
    + do 7 (hoare_seq; [bstep|]). apply hoare_ret. stable.
    + apply hoare_ret. exact Hb.
  - intros b' Hb'. hoare_seq; [|bstep]. apply hoare_Booking_save. auto.
Qed.

Lemma addBookingMessage_bookings req db :
  Inv db -> Inv (fst (addBookingMessage req db)).
Proof.
  intros HI. unfold addBookingMessage. apply hoare_try_catch; [|exact HI].
  eapply hoare_bind; [apply hoare_Booking_findById|].
  intros [b|] Hb; [|bstep]. specialize (Hb b eq_refl).
  hoare_seq; [bstep|].
  hoare_seq; [|bstep]. apply hoare_Booking_save. intros _. stable.
Qed.

Lemma extendRentalPeriod_bookings req db :
  Inv db -> Inv (fst (extendRentalPeriod req db)).
Proof.
  intros HI. unfold extendRentalPeriod. apply hoare_try_catch; [|exact HI].
  eapply hoare_bind; [apply hoare_Booking_findById|].
  intros [b|] Hb; [|bstep]. specialize (Hb b eq_refl).
  do 5 (hoare_seq; [bstep|]).
  eapply hoare_bind with (Q := fun _ => (er_newEnd req <=? startDate b) = false).
  { unfold reject_if. destruct (_ <=? _); [bstep | now apply hoare_ret]. }
  intros _ Hstart.
  do 4 (hoare_seq; [bstep|]).
  hoare_seq; [|bstep]. apply hoare_Booking_save. intros _.
  apply P_addTimelineEntry, P_extend; [exact Hb | lia].
Qed.

Lemma suspendUser_bookings req db :
  Inv db -> Inv (fst (suspendUser req db)).
Proof.
  intros HI id b. simpl. rewrite lookup_fmap.
  intros [b0 [E ->]]%fmap_Some. unfold suspend_update.
  destruct (_ && _); eauto.
Qed.

Lemma handle_bookings rq db : Inv db -> Inv (fst (handle rq db)).
Proof.
  destruct rq; simpl.
  - intros HI. unfold register. apply hoare_try_catch; [|exact HI].
    do 2 (hoare_seq; [bstep|]). bstep.
  - intros HI. unfold addToWallet. apply hoare_try_catch; [|exact HI].
    do 4 (hoare_seq; [bstep|]). bstep.
  - apply createBooking_bookings.
  - apply updateBookingStatus_bookings.
  - apply addBookingMessage_bookings.
  - apply extendRentalPeriod_bookings.
  - intros HI. unfold complaintRefund. apply hoare_try_catch; [|exact HI].
    hoare_seq; [|bstep]. destruct (negb _); bstep.
  - apply suspendUser_bookings.
  - intros HI. exact HI.
Qed.

Lemma reachable_bookings db : reachable db -> Inv db.
Proof.
  intros [rqs <-].
  assert (H : forall d, Inv d -> Inv (run rqs d)).
  { induction rqs as [|rq rqs IH]; intros d Hd; simpl; [exact Hd|].
    apply IH, handle_bookings, Hd. }
  apply H. intros id b. simpl. rewrite lookup_empty. discriminate.
Qed.
End BookingInvariant.

(** Every stored booking has its start before its end: the pre-save hook
    refuses any other.  So the date hypothesis of the theorems below holds
    of every booking the requests can produce. *)
Lemma reachable_dates db id b :
  reachable db -> bookings db !! id = Some b -> startDate b < endDate b.
Proof.
  intros Hr Hb.
  refine (reachable_bookings (fun b => startDate b < endDate b)
            _ _ _ _ _ _ db Hr id b Hb); simpl; intros; lia.
Qed.

Lemma calculatePricing_ok dp iv pct b :
  pricing_ok (pricing (calculatePricing dp iv pct b)).
Proof. split; reflexivity. Qed.

Lemma extend_pricing_ok ad ac p :
  pricing_ok p -> pricing_ok (extend_pricing ad ac p).
Proof. intros [Ht Hl]. split; simpl; lia. Qed.

Lemma reachable_pricing db :
  reachable db -> all_bookings (fun b => pricing_ok (pricing b)) db.
Proof.
  apply reachable_bookings; intros; try assumption.
  - apply calculatePricing_ok.
  - cbn [pricing set_pricing set_endDate]. now apply extend_pricing_ok.
Qed.

(** ** The wallet of every stored user *)

Lemma wallet_ok_debit a d n bk u :
  wallet_ok u -> wallet_ok (inc_balance_push (- a) (mkTransaction debit a d n bk) u).
Proof.
  unfold wallet_ok. simpl. intros H. rewrite ledger_sum_app. simpl. lia.
Qed.

Lemma wallet_ok_credit a d n bk u :
  wallet_ok u -> wallet_ok (inc_balance_push a (mkTransaction credit a d n bk) u).
Proof.
  unfold wallet_ok. simpl. intros H. rewrite ledger_sum_app. simpl. lia.
Qed.

Lemma wallet_ok_earnings a d n bk u :
  wallet_ok u ->
  wallet_ok (inc_balance_earnings_push a (mkTransaction credit a d n bk) u).
Proof.
  unfold wallet_ok. simpl. intros H. rewrite ledger_sum_app. simpl. lia.
Qed.

Lemma wallet_ok_new : wallet_ok new_User.
Proof. reflexivity. Qed.

Section UserInvariant.
Local Abbreviation Inv := (all_users wallet_ok).

Lemma hoare_User_findByIdAndUpdate id f :
  (forall u, wallet_ok u -> wallet_ok (f u)) ->
  hoare Inv (User_findByIdAndUpdate id f) (fun _ => True).
Proof.
  intros Hf db HI. split; [|trivial]. intros i u. simpl.
  rewrite lookup_alter. case_decide; [subst i|apply HI].
  intros [u0 [E ->]]%fmap_Some. apply Hf, (HI id), E.
Qed.

Lemma hoare_User_create id u :
  wallet_ok u -> hoare Inv (User_create id u) (fun _ => True).
Proof.
  intros Hu db HI. unfold User_create.
  destruct (users db !! id) eqn:E; simpl; [auto|].
  split; [|trivial]. intros i u'. simpl. rewrite lookup_insert.
  case_decide; [intros [= <-]; exact Hu | apply HI].
Qed.

(** A handler that leaves the user collection as it is. *)
Lemma hoare_keeps_users {A} (m : Handler A) :
  (forall db, users (fst (m db)) = users db) -> hoare Inv m (fun _ => True).
Proof.
  intros Hm db HI. split; [|trivial]. intros id u. rewrite Hm. apply HI.
Qed.

Ltac ustep :=
  first [ hoare_simple
        | (apply hoare_keeps_users; reflexivity)
        | (apply hoare_keeps_users; intros ?;
           unfold Booking_save, Booking_save_new;
           repeat case_match; reflexivity)
        | (apply hoare_User_findByIdAndUpdate; intros ? ?;
           first [ now apply wallet_ok_debit | now apply wallet_ok_credit
                 | now apply wallet_ok_earnings ])
        | (apply hoare_User_create; exact wallet_ok_new) ].

Ltac useq := hoare_seq; [ustep|].

Lemma updateBookingStatus_users req db :
  Inv db -> Inv (fst (updateBookingStatus req db)).
Proof.
  intros HI. unfold updateBookingStatus. apply hoare_try_catch; [|exact HI].
  useq. destruct a as [b|]; [|ustep].
  do 3 useq.
  hoare_seq.
  { destruct (_ || _); [|ustep]. useq. ustep. }
  hoare_seq; [|useq; ustep].
  repeat match goal with
         | |- hoare _ (if ?c then _ else _) _ => destruct c
         end.
  - do 4 useq. ustep.
  - hoare_seq.
    { destruct (depositPaid _); [|ustep]. do 2 useq. ustep. }
    do 2 useq. ustep.
  - do 2 useq. ustep.
  - do 7 useq. ustep.
  - ustep.
Qed.

Lemma handle_users rq db : Inv db -> Inv (fst (handle rq db)).
Proof.
  destruct rq; simpl.
  - intros HI. unfold register. apply hoare_try_catch; [|exact HI].
    do 2 useq. ustep.
  - intros HI. unfold addToWallet. apply hoare_try_catch; [|exact HI].
    do 4 useq. ustep.
  - intros HI. unfold createBooking. apply hoare_try_catch; [|exact HI].
    do 2 useq. destruct a0 as [it|]; [|ustep]. do 10 useq. ustep.
  - apply updateBookingStatus_users.
  - intros HI. unfold addBookingMessage. apply hoare_try_catch; [|exact HI].
    useq. destruct a as [b|]; [|ustep]. do 2 useq. ustep.
  - intros HI. unfold extendRentalPeriod. apply hoare_try_catch; [|exact HI].
    useq. destruct a as [b|]; [|ustep]. do 11 useq. ustep.
  - intros HI. unfold complaintRefund. apply hoare_try_catch; [|exact HI].
    hoare_seq; [|ustep]. destruct (negb _); ustep.
  - intros HI. exact HI.
  - intros HI. exact HI.
Qed.

Lemma reachable_users db : reachable db -> Inv db.
Proof.
  intros [rqs <-].
  assert (H : forall d, Inv d -> Inv (run rqs d)).
  { induction rqs as [|rq rqs IH]; intros d Hd; simpl; [exact Hd|].
    apply IH, handle_users, Hd. }
  apply H. intros id u. simpl. rewrite lookup_empty. discriminate.
Qed.
End UserInvariant.

Lemma reachable_handle rq db : reachable db -> reachable (fst (handle rq db)).
Proof.
  intros [rqs <-]. exists (rqs ++ [rq]).
  generalize empty_db. induction rqs as [|r rqs IH]; intros d; simpl; auto.
Qed.

(** * What one request does *)

Ltac handler_unfold :=
  unfold try_catch, bind, Booking_findById, User_findById, Item_findById,
    User_findByIdAndUpdate, Item_findByIdAndUpdate, reject_if, respond, ret,
    deref, throw.

Lemma alter_Some {A} (f : A -> A) (m : gmap N A) i x :
  m !! i = Some x -> alter f i m = <[i := f x]> m.
Proof.
  intros H. apply map_eq. intros j. rewrite lookup_alter, lookup_insert.
  case_decide; [subst j; now rewrite H | reflexivity].
Qed.

Lemma Db_eta db : mkDb (users db) (items db) (bookings db) = db.
Proof. now destruct db. Qed.

(** A cancellation request of the lender, whatever the status of the
    booking: the refund is paid if the deposit flag is set, the item is
    reopened, and the booking is saved as cancelled when the pre-save hook
    accepts it. *)
Lemma updateBookingStatus_cancel req db b len it :
  us_status req = "cancelled" ->
  bookings db !! us_id req = Some b ->
  us_user req = lender b ->
  users db !! lender b = Some len ->
  items db !! item b = Some it ->
  (depositPaid (payment b) = true -> is_Some (users db !! borrower b)) ->
  updateBookingStatus req db =
  let users' :=
    if depositPaid (payment b)
    then alter (inc_balance_push (totalAmount (pricing b)) (refund_tx req b it))
               (borrower b) (users db)
    else users db in
  let items' := alter (set_isAvailable true) (item b) (items db) in
  if pre_save_ok b
  then (mkDb users' items'
             (<[us_id req := cancelled_booking req b]> (bookings db)),
        Res 200 "Booking cancelled successfully")
  else (mkDb users' items' (bookings db),
        Res 500 "Server error updating booking status").
Proof.
  intros Hs Hb Ha Hl Hi Hbor.
  unfold updateBookingStatus. rewrite Hs. handler_unfold.
  rewrite Hb, Hl, Hi. simpl. rewrite Ha, N.eqb_refl. simpl.
  unfold Booking_save, cancelled_booking, refund_tx, pre_save_ok.
  destruct (depositPaid (payment b)) eqn:Hd.
  - destruct (Hbor eq_refl) as [bor Hbor']. rewrite Hbor'. simpl.
    destruct (startDate b <? endDate b); reflexivity.
  - simpl. destruct (startDate b <? endDate b); reflexivity.
Qed.




(** ** C2 *)

(** C2 (the code departs from it): the claim is that 'cancelled' is
    reachable only from 'pending' and 'approved'.  The cancellation branch
    of updateBookingStatus tests only the requested status, unlike the
    other three branches and unlike the bulk cancellation of
    toggleUserSuspension, which is limited to pending and approved
    bookings.  Here booking 100 of the scenario is active, then completed,
    and one cancellation request of the lender moves it to cancelled in
    both cases. *)
Theorem cancel_from_active_and_completed :
  (reachable scn_active
   /\ status <$> bookings scn_active !! 100%N = Some active
   /\ status <$> bookings (fst (updateBookingStatus cancel_100 scn_active))
                   !! 100%N = Some cancelled)
  /\ (reachable scn_completed
      /\ status <$> bookings scn_completed !! 100%N = Some completed
      /\ status <$> bookings (fst (updateBookingStatus cancel_100 scn_completed))
                      !! 100%N = Some cancelled).
Proof.
  split; (split; [eexists; reflexivity | split; vm_compute; reflexivity]).
Qed.

(** ** C3 *)



(** ** C5 *)

(** C5: a request for 'completed' on a booking whose status is not
    'active', in particular on one already 'completed', writes nothing:
    no wallet, no item and no booking changes, so neither the lender's
    earnings nor the borrower's deposit are credited again. *)
Theorem completed_only_from_active req db b :
  us_status req = "completed" ->
  bookings db !! us_id req = Some b ->
  status b <> active ->
  fst (updateBookingStatus req db) = db.
Proof.
  intros Hs Hb Hne.
  assert (Hna : Status_eqb (status b) active = false).
  { destruct (status b); try reflexivity. now destruct Hne. }
  unfold updateBookingStatus. rewrite Hs. handler_unfold.
  rewrite Hb. simpl. rewrite Hna. simpl.
  unfold Booking_save. destruct (pre_save_ok b); simpl.
  - rewrite insert_id by exact Hb. apply Db_eta.
  - reflexivity.
Qed.

(** The completed booking of the scenario, completed again. *)
Lemma completed_only_from_active_witness :
  fst (updateBookingStatus complete_100 scn_completed) = scn_completed.
Proof.
  apply (completed_only_from_active complete_100 scn_completed
           scn_b100_completed).
  - reflexivity.
  - vm_compute. reflexivity.
  - discriminate.
Defined.

(** ** C6 *)

(** C6: a request for 'approved' on a pending booking.  From anyone but
    the lender it is answered 403 and the database is unchanged.  From the
    lender it debits the borrower's wallet by pricing.totalAmount and
    pushes one debit transaction of that amount, sets payment.depositPaid,
    sets the item's availability.isAvailable to false, and appends one
    timeline entry.  (The documents the booking refers to exist, and the
    booking passes the pre-save hook, as every stored booking does.) *)
Theorem approve_pending req db b len :
  us_status req = "approved" ->
  bookings db !! us_id req = Some b ->
  status b = pending ->
  users db !! lender b = Some len ->
  (us_user req <> lender b ->
   updateBookingStatus req db = (db, Forbidden_approve_cancel))
  /\ (us_user req = lender b ->
      forall bor it,
        users db !! borrower b = Some bor ->
        items db !! item b = Some it ->
        startDate b < endDate b ->
        let db' := fst (updateBookingStatus req db) in
        snd (updateBookingStatus req db) = Res 200 "Booking approved successfully"
        /\ users db'
           = <[borrower b :=
                 mkUser (mkWallet (balance (wallet bor) - totalAmount (pricing b))
                                  (transactions (wallet bor)
                                   ++ [payment_tx req b it]))
                        (stats_totalEarnings bor)]> (users db)
        /\ tx_type (payment_tx req b it) = debit
        /\ tx_amount (payment_tx req b it) = totalAmount (pricing b)
        /\ items db' = <[item b := set_isAvailable false it]> (items db)
        /\ item_isAvailable (set_isAvailable false it) = false
        /\ bookings db' = <[us_id req := approved_booking req b]> (bookings db)
        /\ depositPaid (payment (approved_booking req b)) = true
        /\ status (approved_booking req b) = approved
        /\ pricing (approved_booking req b) = pricing b
        /\ exists entry,
             timeline (approved_booking req b) = timeline b ++ [entry]
             /\ tl_status entry = "approved").
Proof.
  intros Hs Hb Hst Hl. split.
  - intros Hne.
    unfold updateBookingStatus. rewrite Hs. handler_unfold.
    rewrite Hb, Hl. simpl.
    destruct (N.eqb_spec (lender b) (us_user req)) as [E|E]; [now destruct Hne|].
    reflexivity.
  - intros Ha bor it Hbor Hi Hlt db'. subst db'.
    unfold updateBookingStatus. rewrite Hs. handler_unfold.
    rewrite Hb. cbn beta iota. rewrite Hbor. cbn beta iota.
    rewrite Hl. cbn beta iota. rewrite Hi. simpl.
    rewrite Ha, N.eqb_refl, Hst. simpl.
    unfold Booking_save, pre_save_ok. simpl.
    apply Z.ltb_lt in Hlt. rewrite Hlt. simpl.
    repeat split.
    + rewrite (alter_Some _ _ _ _ Hbor). reflexivity.
    + apply (alter_Some _ _ _ _ Hi).
    + eexists. split; reflexivity.
Qed.

(** Booking 100 of the scenario: user 3 is refused; the lender's approval
    takes 568 from the borrower's 1000 and closes the item. *)
Lemma approve_pending_witness :
  updateBookingStatus (mkUpdateStatusReq 3%N 100%N "approved" None 3) scn_pending
  = (scn_pending, Forbidden_approve_cancel)
  /\ users (fst (updateBookingStatus approve_100 scn_pending))
     = <[2%N := mkUser (mkWallet (1000 - 568)
                          [payment_tx approve_100 scn_b100_pending drill]) 0]>
         (users scn_pending)
  /\ items (fst (updateBookingStatus approve_100 scn_pending))
     = <[10%N := set_isAvailable false drill]> (items scn_pending).
Proof.
  split.
  - apply (approve_pending (mkUpdateStatusReq 3%N 100%N "approved" None 3)
             scn_pending scn_b100_pending new_User);
      try (vm_compute; reflexivity). discriminate.
  - assert (H := proj2 (approve_pending approve_100 scn_pending
                          scn_b100_pending new_User eq_refl eq_refl eq_refl
                          eq_refl) eq_refl new_User drill eq_refl eq_refl
                       eq_refl).
    destruct H as (_ & Hu & _ & _ & Hi & _).
    split; [exact Hu | exact Hi].
Defined.

(** ** C9 *)

(** C9 (the code departs from it): the claim is that a cancellation
    reopens the item only if the cancelled booking had reserved it.  The
    cancellation branch sets availability.isAvailable to true without any
    test, although its own comment restricts the reopening ("if there are
    no other overlapping active bookings").  In the scenario booking 100
    holds the item, approved and then active, and isAvailable is false;
    booking 101 overlaps it and was never approved; cancelling booking 101
    makes the item available while booking 100 still holds it. *)
Theorem cancel_of_unapproved_booking_reopens_item :
  (reachable scn_approved
   /\ status <$> bookings scn_approved !! 100%N = Some approved
   /\ (fun b => (status b, depositPaid (payment b), tl_status <$> timeline b))
        <$> bookings scn_approved !! 101%N
      = Some (pending, false, ["pending"])
   /\ item_isAvailable <$> items scn_approved !! 10%N = Some false
   /\ let db' := fst (updateBookingStatus cancel_101 scn_approved) in
      item_isAvailable <$> items db' !! 10%N = Some true
      /\ status <$> bookings db' !! 100%N = Some approved
      /\ status <$> bookings db' !! 101%N = Some cancelled)
  /\ (reachable scn_active
      /\ status <$> bookings scn_active !! 100%N = Some active
      /\ (fun b => (status b, depositPaid (payment b), tl_status <$> timeline b))
           <$> bookings scn_active !! 101%N
         = Some (pending, false, ["pending"])
      /\ item_isAvailable <$> items scn_active !! 10%N = Some false
      /\ let db' := fst (updateBookingStatus cancel_101 scn_active) in
         item_isAvailable <$> items db' !! 10%N = Some true
         /\ status <$> bookings db' !! 100%N = Some active
         /\ status <$> bookings db' !! 101%N = Some cancelled).
Proof.
  split; (split; [eexists; reflexivity|]); repeat split; vm_compute; reflexivity.
Qed.

(** ** createBooking *)

Lemma findOne_Some (p : Booking -> bool) (m : gmap N Booking) kb :
  List.find (fun kb => p (snd kb)) (map_to_list m) = Some kb ->
  m !! fst kb = Some (snd kb) /\ p (snd kb) = true.
Proof.
  intros H. apply List.find_some in H as [Hin Hp]. split; [|exact Hp].
  apply list_elem_of_In in Hin. destruct kb as [k b].
  now apply elem_of_map_to_list in Hin.
Qed.

Lemma findOne_None (p : Booking -> bool) (m : gmap N Booking) :
  List.find (fun kb => p (snd kb)) (map_to_list m) = None ->
  forall id b, m !! id = Some b -> p b = false.
Proof.
  intros H id b Hb.
  apply (List.find_none _ _ H (id, b)).
  apply list_elem_of_In. now apply elem_of_map_to_list.
Qed.

Lemma conflict_filter_true itemId s e b :
  conflict_filter itemId s e b = true
  <-> item b = itemId /\ (status b = approved \/ status b = active)
      /\ startDate b <= e /\ endDate b >= s.
Proof.
  unfold conflict_filter.
  rewrite !andb_true_iff, orb_true_iff, N.eqb_eq, Z.leb_le, Z.geb_le.
  assert (Ha : Status_eqb (status b) approved = true <-> status b = approved)
    by (destruct (status b); simpl; split; congruence).
  assert (Hc : Status_eqb (status b) active = true <-> status b = active)
    by (destruct (status b); simpl; split; congruence).
  rewrite Ha, Hc. intuition lia.
Qed.

(** What createBooking answers to a request that passes the entry
    checks, by the outcome of the conflict query. *)
Lemma createBooking_after_entry req db it :
  passes_entry_checks req db it ->
  createBooking req db =
  match List.find
          (fun kb => conflict_filter (cb_itemId req) (cb_startDate req)
                                     (cb_endDate req) (snd kb))
          (map_to_list (bookings db)) with
  | Some _ => (db, DateConflict)
  | None =>
      match users db !! cb_user req with
      | None => (db, Res 500 "Server error creating booking")
      | Some bor =>
          if balance (wallet bor) <? totalAmount (pricing (priced_booking req it))
          then (db, InsufficientFunds)
          else
            try_catch
              (exec Booking_save_new (cb_newId req)
                 (addTimelineEntry (cb_now req) "pending"
                    "Booking request created" (priced_booking req it)) in
               ret (Res 201 "Booking request created successfully"))
              "Server error creating booking" db
      end
  end.
Proof.
  intros (Hv & Hi & [own Ho] & Hne & Hav).
  unfold createBooking. handler_unfold. unfold Booking_findOne.
  rewrite Hv. simpl. rewrite Hi. simpl. rewrite Ho. simpl.
  destruct (N.eqb_spec (item_owner it) (cb_user req)) as [E|_]; [now destruct Hne|].
  rewrite Hav. simpl.
  destruct (List.find _ _) as [kb|]; simpl; [reflexivity|].
  destruct (users db !! cb_user req) as [bor|]; simpl; [|reflexivity].
  fold (priced_booking req it).
  destruct (_ <? _); simpl; [reflexivity|].
  unfold Booking_save_new.
  destruct (pre_save_ok _); [|reflexivity].
  destruct (bookings db !! cb_newId req); reflexivity.
Qed.

Lemma no_conflict_found req db :
  ~ spec_date_conflict req db ->
  List.find
    (fun kb => conflict_filter (cb_itemId req) (cb_startDate req)
                               (cb_endDate req) (snd kb))
    (map_to_list (bookings db)) = None.
Proof.
  intros Hno. destruct (List.find _ _) as [kb|] eqn:F; [|reflexivity].
  apply findOne_Some in F as [Hkb Hp]. destruct Hno.
  exists (fst kb), (snd kb). split; [exact Hkb|].
  now apply conflict_filter_true.
Qed.

Lemma conflict_found req db :
  spec_date_conflict req db ->
  exists kb,
    List.find
      (fun kb => conflict_filter (cb_itemId req) (cb_startDate req)
                                 (cb_endDate req) (snd kb))
      (map_to_list (bookings db)) = Some kb.
Proof.
  intros (id & b & Hb & Hc). destruct (List.find _ _) as [kb|] eqn:F;
    [now exists kb|].
  pose proof (findOne_None _ _ F id b Hb) as Hf.
  apply conflict_filter_true in Hc. congruence.
Qed.

(** ** C7 *)

(** C7: a creation request for which the borrower's balance is below the
    totalAmount computed for it fails: nothing is written, neither a
    booking nor a wallet, and the answer is not the 201 of a creation; it
    is "Insufficient wallet balance" (400) once the request is past the
    checks made before the balance is read (validation, own item,
    availability flag, date conflict). *)
Theorem insufficient_balance_rejected req db it bor :
  items db !! cb_itemId req = Some it ->
  users db !! cb_user req = Some bor ->
  balance (wallet bor) < totalAmount (pricing (priced_booking req it)) ->
  fst (createBooking req db) = db
  /\ (forall msg, snd (createBooking req db) <> Res 201 msg)
  /\ (passes_entry_checks req db it -> ~ spec_date_conflict req db ->
      snd (createBooking req db) = InsufficientFunds).
Proof.
  intros Hi Hbor Hlt. apply Z.ltb_lt in Hlt.
  assert (Hall : exists c m, createBooking req db = (db, Res c m) /\ c <> 201).
  { unfold createBooking. handler_unfold. unfold Booking_findOne.
    destruct (cb_valid req); simpl; [|eexists _, _; split; [reflexivity|lia]].
    rewrite Hi. simpl.
    destruct (users db !! item_owner it); simpl;
      [|eexists _, _; split; [reflexivity|lia]].
    destruct (item_owner it =? cb_user req)%N; simpl;
      [eexists _, _; split; [reflexivity|lia]|].
    destruct (item_isAvailable it); simpl;
      [|eexists _, _; split; [reflexivity|lia]].
    destruct (List.find _ _); simpl; [eexists _, _; split; [reflexivity|lia]|].
    rewrite Hbor. simpl.
    assert (Hlt' := Hlt). unfold priced_booking in Hlt'. simpl in Hlt'.
    rewrite Hlt'. simpl.
    eexists _, _; split; [reflexivity|lia]. }
  destruct Hall as (c & m & E & Hc). rewrite E. simpl.
  split; [reflexivity|]. split; [intros msg [= -> _]; now destruct Hc|].
  intros Hentry Hno. rewrite (createBooking_after_entry req db it Hentry) in E.
  rewrite (no_conflict_found req db Hno), Hbor, Hlt in E. now inversion E.
Qed.

(** Scenario A of the specification: 1000 against a total of 2525. *)
Lemma insufficient_balance_rejected_witness :
  fst (createBooking request_A scn_A) = scn_A
  /\ snd (createBooking request_A scn_A) = InsufficientFunds
  /\ totalAmount (pricing (priced_booking request_A camera)) = 2525.
Proof.
  assert (Hi : items scn_A !! cb_itemId request_A = Some camera)
    by (vm_compute; reflexivity).
  assert (Hu : users scn_A !! cb_user request_A = Some new_User)
    by (vm_compute; reflexivity).
  assert (Hlt : balance (wallet new_User)
                < totalAmount (pricing (priced_booking request_A camera)))
    by (vm_compute; reflexivity).
  destruct (insufficient_balance_rejected request_A scn_A camera new_User
              Hi Hu Hlt) as (H1 & _ & H3).
  split; [exact H1|]. split; [|vm_compute; reflexivity].
  apply H3.
  - repeat split; try (vm_compute; reflexivity).
    + exists new_User. vm_compute. reflexivity.
    + discriminate.
  - intros (id & b & Hb & _).
    assert (E : bookings scn_A = ∅) by reflexivity.
    rewrite E, lookup_empty in Hb. discriminate.
Defined.

(** ** C8 *)

(** C8: createBooking answers "Item is not available for the selected
    dates" only when some booking of the same item with status approved or
    active has start <= proposed end and end >= proposed start, and it
    does answer so whenever there is such a booking and the request is
    past the checks made before the conflict query (validation, item and
    owner found, not the requester's own item, availability flag);
    bookings with status pending, completed or cancelled never cause it. *)
Theorem date_conflict_exactly req db :
  (snd (createBooking req db) = DateConflict -> spec_date_conflict req db)
  /\ (forall it,
        passes_entry_checks req db it -> spec_date_conflict req db ->
        snd (createBooking req db) = DateConflict)
  /\ ((forall id b,
         bookings db !! id = Some b -> item b = cb_itemId req ->
         status b = pending \/ status b = completed \/ status b = cancelled) ->
      snd (createBooking req db) <> DateConflict).
Proof.
  assert (Honly : snd (createBooking req db) = DateConflict ->
                  spec_date_conflict req db).
  { unfold createBooking, DateConflict. handler_unfold. unfold Booking_findOne.
    destruct (cb_valid req); simpl; [|discriminate].
    destruct (items db !! cb_itemId req) as [it|]; simpl; [|discriminate].
    destruct (users db !! item_owner it); simpl; [|discriminate].
    destruct (item_owner it =? cb_user req)%N; simpl; [discriminate|].
    destruct (item_isAvailable it); simpl; [|discriminate].
    destruct (List.find _ _) as [kb|] eqn:F; simpl.
    - intros _. apply findOne_Some in F as [Hkb Hp].
      apply conflict_filter_true in Hp. now exists (fst kb), (snd kb).
    - destruct (users db !! cb_user req) as [bor|]; simpl; [|discriminate].
      destruct (_ <? _); simpl; [discriminate|].
      unfold Booking_save_new.
      destruct (pre_save_ok _); [|discriminate].
      destruct (bookings db !! cb_newId req); discriminate. }
  split; [exact Honly|]. split.
  - intros it Hentry Hc.
    rewrite (createBooking_after_entry req db it Hentry).
    destruct (conflict_found req db Hc) as [kb ->]. reflexivity.
  - intros Hst Hresp. apply Honly in Hresp as (id & b & Hb & Hit & Hs & _).
    destruct (Hst id b Hb Hit) as [E|[E|E]]; rewrite E in Hs;
      destruct Hs; discriminate.
Qed.

(** A request that starts the day the approved booking 100 ends is a
    conflict. *)
Lemma date_conflict_exactly_witness :
  snd (createBooking request_touching scn_reopened) = DateConflict.
Proof.
  apply (proj1 (proj2 (date_conflict_exactly request_touching scn_reopened))
           drill).
  - repeat split; try (vm_compute; reflexivity).
    + exists new_User. vm_compute. reflexivity.
    + discriminate.
  - exists 100%N, (approved_booking approve_100 scn_b100_pending).
    repeat split; try (vm_compute; reflexivity).
    + left. reflexivity.
    + vm_compute. discriminate.
    + vm_compute. discriminate.
Defined.

(** ** C10 *)

Lemma Math_ceil_div_spec n d :
  0 < d -> (Math_ceil_div n d - 1) * d < n <= Math_ceil_div n d * d.
Proof.
  intros Hd. unfold Math_ceil_div.
  pose proof (Z.div_mod (- n) d ltac:(lia)) as E.
  pose proof (Z.mod_pos_bound (- n) d Hd) as B. nia.
Qed.

(** C10: an extension request succeeds only if the requester owns the
    item, the booking is approved or active, the new end date is strictly
    after the current one, and the borrower's balance is at least
    additionalCost.  On success, with additionalDays the ceiling of
    (newEnd - oldEnd) in days and additionalCost = additionalDays *
    dailyPrice: totalDays grows by additionalDays; subtotal, totalAmount
    and lenderEarnings grow by additionalCost; depositAmount and
    platformFee are unchanged; the borrower is debited additionalCost with
    one debit transaction; one timeline entry is appended.  When only the
    balance is short, the answer is 400 "Borrower has insufficient balance
    for extension" and nothing is written.  And the extension does
    happen: under the four conditions, for a stored booking (start before
    end) whose item and borrower documents exist, the answer is the 200
    and the database is the one described. *)
Theorem extension_succeeds_only_if req db :
  (snd (extendRentalPeriod req db) = Extended ->
  exists b it bor,
    bookings db !! er_bookingId req = Some b
    /\ items db !! item b = Some it
    /\ users db !! borrower b = Some bor
    /\ item_owner it = er_user req
    /\ (status b = approved \/ status b = active)
    /\ endDate b < er_newEnd req
    /\ additionalCost req b <= balance (wallet bor)
    /\ (additionalDays req b - 1) * MS_PER_DAY
       < er_newEnd req - endDate b <= additionalDays req b * MS_PER_DAY
    /\ additionalCost req b = additionalDays req b * dailyPrice (pricing b)
    /\ exists b' entry,
         fst (extendRentalPeriod req db)
         = mkDb (<[borrower b :=
                     mkUser (mkWallet (balance (wallet bor) - additionalCost req b)
                                      (transactions (wallet bor)
                                       ++ [extension_tx req b it]))
                            (stats_totalEarnings bor)]> (users db))
                (items db)
                (<[er_bookingId req := b']> (bookings db))
         /\ tx_type (extension_tx req b it) = debit
         /\ tx_amount (extension_tx req b it) = additionalCost req b
         /\ totalDays (pricing b') = totalDays (pricing b) + additionalDays req b
         /\ subtotal (pricing b') = subtotal (pricing b) + additionalCost req b
         /\ totalAmount (pricing b')
            = totalAmount (pricing b) + additionalCost req b
         /\ lenderEarnings (pricing b')
            = lenderEarnings (pricing b) + additionalCost req b
         /\ depositAmount (pricing b') = depositAmount (pricing b)
         /\ platformFee (pricing b') = platformFee (pricing b)
         /\ dailyPrice (pricing b') = dailyPrice (pricing b)
         /\ endDate b' = er_newEnd req
         /\ status b' = status b
         /\ timeline b' = timeline b ++ [entry]
         /\ tl_status entry = "extended")
  /\ (forall b it bor,
        bookings db !! er_bookingId req = Some b ->
        items db !! item b = Some it ->
        users db !! borrower b = Some bor ->
        item_owner it = er_user req ->
        status b = approved \/ status b = active ->
        startDate b < endDate b ->
        endDate b < er_newEnd req ->
        balance (wallet bor) < additionalCost req b ->
        extendRentalPeriod req db = (db, InsufficientFunds_extension))
  /\ (forall b it bor,
        bookings db !! er_bookingId req = Some b ->
        items db !! item b = Some it ->
        users db !! borrower b = Some bor ->
        item_owner it = er_user req ->
        status b = approved \/ status b = active ->
        startDate b < endDate b ->
        endDate b < er_newEnd req ->
        additionalCost req b <= balance (wallet bor) ->
        extendRentalPeriod req db
        = (mkDb (<[borrower b :=
                     mkUser (mkWallet (balance (wallet bor) - additionalCost req b)
                                      (transactions (wallet bor)
                                       ++ [extension_tx req b it]))
                            (stats_totalEarnings bor)]> (users db))
                (items db)
                (<[er_bookingId req := extended_booking req b]> (bookings db)),
           Extended)).
Proof.
  split; [|split;
           intros b it bor Hb Hi Hbor Ho Hst Hlt Hend Hbal;
           unfold extendRentalPeriod; handler_unfold;
           rewrite Hb; simpl; rewrite Hi; simpl;
           rewrite Ho, N.eqb_refl; simpl;
           (replace (Status_eqb (status b) approved
                     || Status_eqb (status b) active) with true
              by (now destruct Hst as [-> | ->]));
           simpl;
           (destruct (Z.leb_spec (er_newEnd req) (startDate b)); [lia|]);
           (destruct (Z.leb_spec (er_newEnd req) (endDate b)); [lia|]);
           simpl; rewrite Hbor; simpl;
           fold (additionalDays req b); fold (additionalCost req b)].
  - unfold extendRentalPeriod, Extended. handler_unfold.
    destruct (bookings db !! er_bookingId req) as [b|] eqn:Hb; simpl;
      [|discriminate].
    destruct (items db !! item b) as [it|] eqn:Hi; simpl; [|discriminate].
    destruct (N.eqb_spec (item_owner it) (er_user req)) as [Ho|_]; simpl;
      [|discriminate].
    destruct (Status_eqb (status b) approved || Status_eqb (status b) active)
      eqn:Hst; simpl; [|discriminate].
    destruct (Z.leb_spec (er_newEnd req) (startDate b)) as [_|Hstart]; simpl;
      [discriminate|].
    destruct (Z.leb_spec (er_newEnd req) (endDate b)) as [_|Hend]; simpl;
      [discriminate|].
    destruct (users db !! borrower b) as [bor|] eqn:Hbor; simpl; [|discriminate].
    fold (additionalDays req b). fold (additionalCost req b).
    destruct (Z.ltb_spec (balance (wallet bor)) (additionalCost req b))
      as [_|Hbal]; simpl; [discriminate|].
    unfold Booking_save, pre_save_ok. simpl.
    destruct (Z.ltb_spec (startDate b) (er_newEnd req)) as [_|]; [|lia]. simpl.
    intros _. exists b, it, bor.
    pose proof (Math_ceil_div_spec (er_newEnd req - endDate b) MS_PER_DAY eq_refl)
      as [Hlo Hhi].
    fold (additionalDays req b) in Hlo, Hhi.
    repeat (split; [first [assumption | reflexivity | idtac]|]).
    + destruct (status b); simpl in Hst; try discriminate; auto.
    + exact Hhi.
    + eexists _, _. split.
      * rewrite (alter_Some _ _ _ _ Hbor). reflexivity.
      * repeat split.
  - apply Z.ltb_lt in Hbal. rewrite Hbal. reflexivity.
  - destruct (Z.ltb_spec (balance (wallet bor)) (additionalCost req b));
      [lia|]. simpl.
    unfold Booking_save, pre_save_ok. simpl.
    destruct (Z.ltb_spec (startDate b) (er_newEnd req)); [|lia]. simpl.
    rewrite (alter_Some _ _ _ _ Hbor). reflexivity.
Qed.

(** The active booking 100 extended by a day and a millisecond: the
    request is answered 200, two more days are charged at 70 a day, the
    borrower's balance goes from 432 to 292 and the total from 568 to
    708. *)
Lemma extension_succeeds_only_if_witness :
  snd (extendRentalPeriod extend_100 scn_active) = Extended
  /\ (fun u => balance (wallet u))
     <$> users (fst (extendRentalPeriod extend_100 scn_active)) !! 2%N
     = Some (432 - 2 * 70)
  /\ (fun b => totalAmount (pricing b))
     <$> bookings (fst (extendRentalPeriod extend_100 scn_active)) !! 100%N
     = Some (568 + 2 * 70)
  /\ (fun b => length (timeline b))
     <$> bookings (fst (extendRentalPeriod extend_100 scn_active)) !! 100%N
     = Some (S (length (timeline scn_b100_active))).
Proof.
  assert (H := proj2 (proj2 (extension_succeeds_only_if extend_100 scn_active))
                 scn_b100_active scn_drill_approved scn_borrower_approved).
  rewrite H.
  - vm_compute. repeat split.
  - vm_compute. reflexivity.
  - vm_compute. reflexivity.
  - vm_compute. reflexivity.
  - reflexivity.
  - right. reflexivity.
  - reflexivity.
  - reflexivity.
  - vm_compute. discriminate.
Defined.

(** ** C4 *)

(** C4, as the code has it.  For integer amounts: in every database the
    requests can produce, every booking has totalAmount = subtotal +
    depositAmount + platformFee and lenderEarnings = subtotal -
    platformFee; so it is after creation, after every status change and
    after every extension.  For any price, also a fractional one, the
    pricing calculatePricing stores has the two equalities on doubles:
    totalAmount and lenderEarnings are computed by that sum and that
    difference. *)
Theorem pricing_invariant :
  (forall db id b,
     reachable db ->
     bookings db !! id = Some b ->
     totalAmount (pricing b)
     = subtotal (pricing b) + depositAmount (pricing b) + platformFee (pricing b)
     /\ lenderEarnings (pricing b)
        = subtotal (pricing b) - platformFee (pricing b))
  /\ (forall dailyPrice itemValue depositPercentage startDate endDate,
        let p := Doubles.calculatePricing dailyPrice itemValue
                   depositPercentage startDate endDate in
        Doubles.totalAmount p
        = (Doubles.subtotal p + Doubles.depositAmount p
           + Doubles.platformFee p)%float
        /\ Doubles.lenderEarnings p
           = (Doubles.subtotal p - Doubles.platformFee p)%float).
Proof.
  split.
  - intros db id b Hr Hb. exact (reachable_pricing db Hr id b Hb).
  - intros. split; reflexivity.
Qed.

(** Booking 100 after its extension. *)
Lemma pricing_invariant_witness :
  exists b,
    bookings scn_extended !! 100%N = Some b
    /\ totalAmount (pricing b)
       = subtotal (pricing b) + depositAmount (pricing b) + platformFee (pricing b)
    /\ lenderEarnings (pricing b) = subtotal (pricing b) - platformFee (pricing b)
    /\ totalAmount (pricing b) = 568 + 140.
Proof.
  eexists. split; [vm_compute; reflexivity|].
  split; [|split].
  - refine (proj1 (proj1 pricing_invariant scn_extended 100%N _ _ _)).
    + exists scn_to_extended. reflexivity.
    + vm_compute. reflexivity.
  - refine (proj2 (proj1 pricing_invariant scn_extended 100%N _ _ _)).
    + exists scn_to_extended. reflexivity.
    + vm_compute. reflexivity.
  - reflexivity.
Defined.

(** C4 as stated fails after an extension when the daily price is not
    an integer.  A booking of one day at 99.99 a day (item value 1000,
    deposit 20 percent) is priced 99.99 + 200 + 5 = 304.99.  Its extension
    by two days adds 2 * 99.99 to subtotal and to totalAmount separately:
    subtotal becomes 299.96999999999997 and totalAmount 504.97, while
    subtotal + depositAmount + platformFee is 504.96999999999997. *)
Lemma pricing_sum_fails_after_extension :
  let p := Doubles.priced_99_99 in
  let q := Doubles.extended_99_99 in
  (Doubles.subtotal p = 99.99 /\ Doubles.depositAmount p = 200
   /\ Doubles.platformFee p = 5 /\ Doubles.totalAmount p = 304.99)%float
  /\ (Doubles.totalDays q = 3 /\ Doubles.subtotal q = 299.96999999999997
      /\ Doubles.totalAmount q = 504.97)%float
  /\ (Doubles.subtotal q + Doubles.depositAmount q + Doubles.platformFee q
      = 504.96999999999997)%float
  /\ (Doubles.totalAmount q
      =? Doubles.subtotal q + Doubles.depositAmount q + Doubles.platformFee q)%float
     = false.
Proof. repeat split; vm_compute; reflexivity. Qed.

(** ** C1 *)

(** C1, as the code has it, for integer amounts: a new account starts
    with balance 1000 and no transaction, so in every database the
    requests can produce the balance of every user is 1000 plus the
    credits minus the debits of the transaction history, and it is so
    again after any further request (booking payment, refund, earnings,
    deposit refund, extension payment, wallet top-up, complaint
    refund). *)
Theorem ledger_invariant db rq id u :
  reachable db ->
  users (fst (handle rq db)) !! id = Some u ->
  balance (wallet u)
  = STARTING_BALANCE
    + (sum_of credit (transactions (wallet u))
       - sum_of debit (transactions (wallet u))).
Proof.
  intros Hr Hu.
  exact (reachable_users _ (reachable_handle rq db Hr) id u Hu).
Qed.

(** The borrower of booking 100 after completion: 1000 - 568 + 200. *)
Lemma ledger_invariant_witness :
  exists u,
    users (fst (handle (ReqUpdateStatus complete_100) scn_active)) !! 2%N = Some u
    /\ balance (wallet u) = 1000 + (200 - 568).
Proof.
  eexists. split; [vm_compute; reflexivity|].
  refine (ledger_invariant scn_active (ReqUpdateStatus complete_100) 2%N _ _ _).
  - exists scn_to_active. reflexivity.
  - vm_compute. reflexivity.
Defined.

(** C1 as stated fails at registration: the new user has balance 1000
    and an empty transaction history, whose credits minus debits are 0. *)
Lemma ledger_sum_differs_at_registration :
  let db := fst (register (mkRegisterReq true 1%N) empty_db) in
  reachable db
  /\ exists u,
       users db !! 1%N = Some u
       /\ balance (wallet u) = 1000
       /\ transactions (wallet u) = []
       /\ balance (wallet u)
          <> sum_of credit (transactions (wallet u))
             - sum_of debit (transactions (wallet u)).
Proof.
  split.
  - exists [ReqRegister (mkRegisterReq true 1%N)]. reflexivity.
  - exists new_User. repeat split. discriminate.
Qed.

(** Why C1 is kept to integer amounts: addToWallet takes any positive
    number.  A new wallet topped up by 0.1 and then by 0.2 has the balance
    (1000 + 0.1) + 0.2 = 1000.3000000000001, while 1000 plus the credits
    0.1 + 0.2 is 1000.3. *)
Lemma ledger_drifts_with_fractions :
  let w := Doubles.topped_up in
  Doubles.transactions w = [(credit, 0.1%float); (credit, 0.2%float)]
  /\ Doubles.balance w = 1000.3000000000001%float
  /\ (1000 + Doubles.sum_of credit (Doubles.transactions w)
      - Doubles.sum_of debit (Doubles.transactions w) = 1000.3)%float
  /\ (Doubles.balance w
      =? 1000 + Doubles.sum_of credit (Doubles.transactions w)
         - Doubles.sum_of debit (Doubles.transactions w))%float
     = false.
Proof. repeat split; vm_compute; reflexivity. Qed.

(** * More of the booking controller *)

(** ** The transitions of updateBookingStatus, one by one *)

(** The lender approves a pending booking. *)
Lemma updateBookingStatus_approve req db b len bor it :
  us_status req = "approved" ->
  bookings db !! us_id req = Some b ->
  status b = pending ->
  us_user req = lender b ->
  users db !! lender b = Some len ->
  users db !! borrower b = Some bor ->
  items db !! item b = Some it ->
  updateBookingStatus req db =
  let users' :=
    <[borrower b := inc_balance_push (- totalAmount (pricing b))
                                     (payment_tx req b it) bor]> (users db) in
  let items' := <[item b := set_isAvailable false it]> (items db) in
  if pre_save_ok b
  then (mkDb users' items'
             (<[us_id req := approved_booking req b]> (bookings db)),
        Res 200 "Booking approved successfully")
  else (mkDb users' items' (bookings db),
        Res 500 "Server error updating booking status").
Proof.
  intros Hs Hb Hst Ha Hl Hbor Hi.
  unfold updateBookingStatus. rewrite Hs. handler_unfold.
  rewrite Hb. cbn beta iota. rewrite Hbor. cbn beta iota.
  rewrite Hl. cbn beta iota. rewrite Hi. simpl.
  rewrite Ha, N.eqb_refl, Hst. simpl.
  rewrite (alter_Some _ _ _ _ Hbor), (alter_Some _ _ _ _ Hi).
  unfold Booking_save, pre_save_ok. simpl.
  destruct (startDate b <? endDate b); reflexivity.
Qed.

(** Pickup of an approved booking, by whoever asks. *)
Lemma updateBookingStatus_pickup req db b it :
  us_status req = "active" ->
  bookings db !! us_id req = Some b ->
  status b = approved ->
  items db !! item b = Some it ->
  updateBookingStatus req db =
  let items' := <[item b := set_isAvailable false it]> (items db) in
  if pre_save_ok b
  then (mkDb (users db) items'
             (<[us_id req := active_booking req b]> (bookings db)),
        Res 200 "Booking active successfully")
  else (mkDb (users db) items' (bookings db),
        Res 500 "Server error updating booking status").
Proof.
  intros Hs Hb Hst Hi.
  unfold updateBookingStatus. rewrite Hs. handler_unfold.
  rewrite Hb. cbn beta iota. rewrite Hi. simpl. rewrite Hst. simpl.
  rewrite (alter_Some _ _ _ _ Hi).
  unfold Booking_save, pre_save_ok. simpl.
  destruct (startDate b <? endDate b); reflexivity.
Qed.

(** Completion of an active booking, by whoever asks. *)
Lemma updateBookingStatus_complete req db b len it :
  us_status req = "completed" ->
  bookings db !! us_id req = Some b ->
  status b = active ->
  users db !! lender b = Some len ->
  is_Some (users db !! borrower b) ->
  items db !! item b = Some it ->
  updateBookingStatus req db =
  let users' :=
    alter (inc_balance_push (depositAmount (pricing b))
                            (deposit_refund_tx req b it)) (borrower b)
      (<[lender b := inc_balance_earnings_push (lenderEarnings (pricing b))
                       (earnings_tx req b it) len]> (users db)) in
  let items' :=
    <[item b := inc_item_stats (lenderEarnings (pricing b))
                               (set_isAvailable true it)]> (items db) in
  if pre_save_ok b
  then (mkDb users' items'
             (<[us_id req := completed_booking req b]> (bookings db)),
        Res 200 "Booking completed successfully")
  else (mkDb users' items' (bookings db),
        Res 500 "Server error updating booking status").
Proof.
  intros Hs Hb Hst Hl [bor Hbor] Hi.
  unfold updateBookingStatus. rewrite Hs. handler_unfold.
  rewrite Hb. cbn beta iota. rewrite Hbor. cbn beta iota.
  rewrite Hl. cbn beta iota. rewrite Hi. simpl. rewrite Hst. simpl.
  rewrite (alter_Some _ _ _ _ Hl).
  rewrite (alter_Some _ _ _ _ Hi).
  rewrite (alter_Some (inc_item_stats _) _ (item b) (set_isAvailable true it))
    by apply lookup_insert_eq.
  rewrite insert_insert_eq.
  unfold Booking_save, pre_save_ok. simpl.
  destruct (startDate b <? endDate b); reflexivity.
Qed.

(** ** Who may ask for what *)

(** Approval and cancellation are the lender's: from any other user the
    request is answered 403 and nothing is written, whatever the status of
    the booking. *)
Theorem only_lender_approves_or_cancels req db b len :
  us_status req = "approved" \/ us_status req = "cancelled" ->
  bookings db !! us_id req = Some b ->
  users db !! lender b = Some len ->
  us_user req <> lender b ->
  updateBookingStatus req db = (db, Forbidden_approve_cancel).
Proof.
  intros Hs Hb Hl Hne.
  unfold updateBookingStatus. handler_unfold.
  rewrite Hb. cbn beta iota. rewrite Hl. cbn beta iota.
  destruct (N.eqb_spec (lender b) (us_user req)) as [E|_];
    [now destruct Hne|].
  destruct Hs as [-> | ->]; reflexivity.
Qed.

(** User 3, a stranger to booking 100, cannot cancel it. *)
Lemma only_lender_approves_or_cancels_witness :
  updateBookingStatus (sent_by 3%N cancel_100) scn_approved
  = (scn_approved, Forbidden_approve_cancel).
Proof.
  apply (only_lender_approves_or_cancels (sent_by 3%N cancel_100) scn_approved
           scn_b100_approved new_User).
  - right. reflexivity.
  - vm_compute. reflexivity.
  - vm_compute. reflexivity.
  - discriminate.
Defined.

(** For any other requested status the handler never looks at the
    requester: the same request sent by any user has the same effect and
    the same answer.  In particular pickup and completion, which pays the
    lender and refunds the deposit, are open to every authenticated
    user. *)
Theorem other_statuses_ignore_requester req db u :
  us_status req <> "approved" ->
  us_status req <> "cancelled" ->
  updateBookingStatus (sent_by u req) db = updateBookingStatus req db.
Proof.
  intros Hna Hnc.
  unfold updateBookingStatus, sent_by. simpl.
  destruct (String.eqb_spec (us_status req) "approved") as [E|_];
    [now destruct Hna|].
  destruct (String.eqb_spec (us_status req) "cancelled") as [E|_];
    [now destruct Hnc|].
  reflexivity.
Qed.

(** User 3, a stranger to booking 100, completes it as the borrower
    would. *)
Lemma other_statuses_ignore_requester_witness :
  updateBookingStatus (sent_by 3%N complete_100) scn_active
  = updateBookingStatus complete_100 scn_active.
Proof.
  apply (other_statuses_ignore_requester complete_100 scn_active 3%N);
    discriminate.
Defined.

(** ** Requests that match no transition *)

(** A status request that is not a cancellation and matches none of
    pending -> approved, approved -> active, active -> completed writes
    nothing and is answered 200 all the same: a repeated approval does not
    debit again, a pickup of a pending booking does nothing, and a status
    outside the five (the handler never reads the result of the route's
    validation) is accepted. *)
Theorem unmatched_request_is_a_noop req db b :
  bookings db !! us_id req = Some b ->
  us_status req <> "cancelled" ->
  (us_status req = "approved" ->
   status b <> pending /\ is_Some (users db !! lender b)
   /\ us_user req = lender b) ->
  (us_status req = "active" -> status b <> approved) ->
  (us_status req = "completed" -> status b <> active) ->
  startDate b < endDate b ->
  updateBookingStatus req db
  = (db, Res 200 ("Booking " +:+ us_status req +:+ " successfully")).
Proof.
  intros Hb Hnc Happ Hact Hcomp Hlt.
  assert (Eq : forall s, status b <> s -> Status_eqb (status b) s = false).
  { intros s Hs. destruct (status b), s; try reflexivity; now destruct Hs. }
  apply Z.ltb_lt in Hlt.
  unfold updateBookingStatus. handler_unfold.
  rewrite Hb. cbn beta iota.
  destruct (String.eqb_spec (us_status req) "cancelled") as [E|_];
    [now destruct Hnc|].
  destruct (String.eqb_spec (us_status req) "approved") as [Ea|_].
  - destruct (Happ Ea) as (Hst & [len Hl] & Hu).
    rewrite Hl, Hu, N.eqb_refl, (Eq _ Hst). simpl. rewrite Ea. simpl.
    unfold Booking_save, pre_save_ok. rewrite Hlt. simpl.
    rewrite insert_id by exact Hb. now rewrite Db_eta.
  - simpl.
    destruct (String.eqb_spec (us_status req) "active") as [Ec|_].
    + rewrite (Eq _ (Hact Ec)). simpl. rewrite Ec. simpl.
      unfold Booking_save, pre_save_ok. rewrite Hlt. simpl.
      rewrite insert_id by exact Hb. now rewrite Db_eta.
    + simpl.
      destruct (String.eqb_spec (us_status req) "completed") as [Ed|_].
      * rewrite (Eq _ (Hcomp Ed)). simpl. rewrite Ed. simpl.
        unfold Booking_save, pre_save_ok. rewrite Hlt. simpl.
        rewrite insert_id by exact Hb. now rewrite Db_eta.
      * simpl. unfold Booking_save, pre_save_ok. rewrite Hlt. simpl.
        rewrite insert_id by exact Hb. now rewrite Db_eta.
Qed.

(** A second approval of booking 100, and a status the route would
    refuse. *)
Lemma unmatched_request_is_a_noop_witness :
  updateBookingStatus approve_100 scn_approved
  = (scn_approved, Res 200 "Booking approved successfully")
  /\ updateBookingStatus (mkUpdateStatusReq 3%N 100%N "lost" None 9) scn_approved
     = (scn_approved, Res 200 "Booking lost successfully").
Proof.
  split.
  - apply (unmatched_request_is_a_noop approve_100 scn_approved
             scn_b100_approved); try discriminate; try reflexivity.
    intros _. split; [discriminate|]. split; [|reflexivity].
    exists new_User. vm_compute. reflexivity.
  - apply (unmatched_request_is_a_noop
             (mkUpdateStatusReq 3%N 100%N "lost" None 9) scn_approved
             scn_b100_approved); try discriminate; reflexivity.
Defined.

(** ** What the transitions move *)

(** Approval never looks at the borrower's balance: it debits
    pricing.totalAmount whatever the balance is, so a borrower whose
    balance has fallen below the total since the request is left with a
    negative balance. *)
Theorem approval_ignores_balance req db b len bor it :
  us_status req = "approved" ->
  bookings db !! us_id req = Some b ->
  status b = pending ->
  us_user req = lender b ->
  users db !! lender b = Some len ->
  users db !! borrower b = Some bor ->
  items db !! item b = Some it ->
  startDate b < endDate b ->
  balance (wallet bor) < totalAmount (pricing b) ->
  snd (updateBookingStatus req db) = Res 200 "Booking approved successfully"
  /\ exists bor',
       users (fst (updateBookingStatus req db)) !! borrower b = Some bor'
       /\ balance (wallet bor') = balance (wallet bor) - totalAmount (pricing b)
       /\ balance (wallet bor') < 0.
Proof.
  intros Hs Hb Hst Ha Hl Hbor Hi Hlt Hbal.
  rewrite (updateBookingStatus_approve req db b len bor it) by assumption.
  cbv zeta. unfold pre_save_ok. apply Z.ltb_lt in Hlt. rewrite Hlt. simpl.
  split; [reflexivity|]. eexists. split; [apply lookup_insert_eq|].
  simpl. split; lia.
Qed.

(** The saw is approved after the drill has taken 568 of the borrower's
    1000: the balance goes from 432 to -136. *)
Lemma approval_ignores_balance_witness :
  exists bor',
    users (fst (updateBookingStatus approve_103 scn2)) !! 2%N = Some bor'
    /\ balance (wallet bor') = 432 - 568.
Proof.
  destruct (approval_ignores_balance approve_103 scn2 scn2_b103 new_User
              scn2_borrower saw) as (_ & bor' & Hb' & Hbal & _);
    try (vm_compute; reflexivity).
  exists bor'. split; [exact Hb' | exact Hbal].
Defined.

(** Pickup moves no money: an approved booking becomes active, with one
    more timeline entry, the item is flagged unavailable, and no wallet is
    touched. *)
Theorem pickup_moves_no_money req db b it :
  us_status req = "active" ->
  bookings db !! us_id req = Some b ->
  status b = approved ->
  items db !! item b = Some it ->
  startDate b < endDate b ->
  let db' := fst (updateBookingStatus req db) in
  users db' = users db
  /\ item_isAvailable <$> items db' !! item b = Some false
  /\ exists b',
       bookings db' = <[us_id req := b']> (bookings db)
       /\ status b' = active
       /\ pricing b' = pricing b /\ payment b' = payment b
       /\ timeline b'
          = timeline b
            ++ [mkTimelineEntry "active" "Item pickup completed" (us_now req)].
Proof.
  intros Hs Hb Hst Hi Hlt db'. subst db'.
  rewrite (updateBookingStatus_pickup req db b it) by assumption.
  cbv zeta. unfold pre_save_ok. apply Z.ltb_lt in Hlt. rewrite Hlt. simpl.
  split; [reflexivity|]. split; [now rewrite lookup_insert_eq|].
  exists (active_booking req b). now repeat split.
Qed.

(** The pickup of booking 100. *)
Lemma pickup_moves_no_money_witness :
  users (fst (updateBookingStatus pickup_100 scn_approved)) = users scn_approved.
Proof.
  refine (proj1 (pickup_moves_no_money pickup_100 scn_approved
                   scn_b100_approved scn_drill_approved _ _ _ _ _));
    vm_compute; reflexivity.
Defined.

(** Completion settles the booking: the lender's wallet and the
    lender's totalEarnings grow by pricing.lenderEarnings, the borrower's
    wallet by pricing.depositAmount, each with one credit transaction; no
    other user changes; the three remaining payment flags are set; the
    item is flagged available and its stats count one more booking and
    the earnings. *)
Theorem completion_settles req db b len bor it :
  us_status req = "completed" ->
  bookings db !! us_id req = Some b ->
  status b = active ->
  users db !! lender b = Some len ->
  users db !! borrower b = Some bor ->
  lender b <> borrower b ->
  items db !! item b = Some it ->
  startDate b < endDate b ->
  let db' := fst (updateBookingStatus req db) in
  snd (updateBookingStatus req db) = Res 200 "Booking completed successfully"
  /\ users db' !! lender b
     = Some (mkUser (mkWallet (balance (wallet len) + lenderEarnings (pricing b))
                              (transactions (wallet len)
                               ++ [earnings_tx req b it]))
                    (stats_totalEarnings len + lenderEarnings (pricing b)))
  /\ users db' !! borrower b
     = Some (mkUser (mkWallet (balance (wallet bor) + depositAmount (pricing b))
                              (transactions (wallet bor)
                               ++ [deposit_refund_tx req b it]))
                    (stats_totalEarnings bor))
  /\ (forall u, u <> lender b -> u <> borrower b ->
                users db' !! u = users db !! u)
  /\ items db' !! item b
     = Some (mkItem (item_owner it) (item_title it) true (item_dailyPrice it)
                    (item_itemValue it) (item_depositPercentage it)
                    (item_stats_bookings it + 1)
                    (item_stats_totalEarnings it + lenderEarnings (pricing b)))
  /\ exists b',
       bookings db' = <[us_id req := b']> (bookings db)
       /\ status b' = completed
       /\ payment b' = mkPayment (depositPaid (payment b)) true true true
       /\ pricing b' = pricing b
       /\ timeline b'
          = timeline b
            ++ [mkTimelineEntry "completed" "Booking completed successfully"
                                (us_now req)].
Proof.
  intros Hs Hb Hst Hl Hbor Hne Hi Hlt db'. subst db'.
  rewrite (updateBookingStatus_complete req db b len it); eauto.
  cbv zeta. unfold pre_save_ok. apply Z.ltb_lt in Hlt. rewrite Hlt. simpl.
  split; [reflexivity|]. split; [|split; [|split; [|split]]].
  - rewrite lookup_alter_ne by congruence. now rewrite lookup_insert_eq.
  - rewrite lookup_alter, decide_True by reflexivity.
    rewrite lookup_insert_ne, Hbor by exact Hne. reflexivity.
  - intros u Hul Hub.
    rewrite lookup_alter_ne, lookup_insert_ne by congruence. reflexivity.
  - now rewrite lookup_insert_eq.
  - exists (completed_booking req b). now repeat split.
Qed.

(** The completion of booking 100: 332 to the lender, 200 back to the
    borrower. *)
Lemma completion_settles_witness :
  users (fst (updateBookingStatus complete_100 scn_active)) !! 1%N
  = Some (mkUser (mkWallet (1000 + 332)
                    [earnings_tx complete_100 scn_b100_active
                                 scn_drill_approved])
                 (0 + 332))
  /\ users (fst (updateBookingStatus complete_100 scn_active)) !! 2%N
     = Some (mkUser (mkWallet (432 + 200)
                       (transactions (wallet scn_borrower_approved)
                        ++ [deposit_refund_tx complete_100 scn_b100_active
                                              scn_drill_approved]))
                    0).
Proof.
  assert (H := completion_settles complete_100 scn_active scn_b100_active
                 new_User scn_borrower_approved scn_drill_approved
                 eq_refl eq_refl eq_refl eq_refl eq_refl).
  cbv zeta in H.
  destruct H as (_ & Hl & Hb & _);
    [discriminate | reflexivity | reflexivity |].
  split; [exact Hl | exact Hb].
Defined.

(** ** How the transitions compose *)

Lemma pre_save_ok_dates b b' :
  startDate b' = startDate b -> endDate b' = endDate b ->
  startDate b < endDate b -> pre_save_ok b' = true.
Proof.
  intros Hs He Hlt. unfold pre_save_ok. rewrite Hs, He. now apply Z.ltb_lt.
Qed.

(** A whole rental, approved by the lender, picked up and completed,
    for integer amounts: the borrower ends subtotal + platformFee poorer,
    the lender subtotal - platformFee richer, so the two wallets together
    hold twice the platform fee less than before; the booking is completed
    and the item available again. *)
Theorem rental_lifecycle_balances r1 r2 r3 db b len bor it :
  us_status r1 = "approved" -> us_status r2 = "active" ->
  us_status r3 = "completed" ->
  us_id r2 = us_id r1 -> us_id r3 = us_id r1 ->
  us_user r1 = lender b ->
  bookings db !! us_id r1 = Some b ->
  status b = pending ->
  users db !! lender b = Some len ->
  users db !! borrower b = Some bor ->
  lender b <> borrower b ->
  items db !! item b = Some it ->
  startDate b < endDate b ->
  pricing_ok (pricing b) ->
  let db3 :=
    fst (updateBookingStatus r3
           (fst (updateBookingStatus r2 (fst (updateBookingStatus r1 db))))) in
  exists len' bor',
    users db3 !! lender b = Some len'
    /\ users db3 !! borrower b = Some bor'
    /\ balance (wallet bor')
       = balance (wallet bor) - (subtotal (pricing b) + platformFee (pricing b))
    /\ balance (wallet len')
       = balance (wallet len) + (subtotal (pricing b) - platformFee (pricing b))
    /\ balance (wallet len') + balance (wallet bor')
       = balance (wallet len) + balance (wallet bor)
         - 2 * platformFee (pricing b)
    /\ transactions (wallet bor')
       = transactions (wallet bor)
         ++ [payment_tx r1 b it; deposit_refund_tx r3 b it]
    /\ transactions (wallet len')
       = transactions (wallet len) ++ [earnings_tx r3 b it]
    /\ status <$> bookings db3 !! us_id r1 = Some completed
    /\ item_isAvailable <$> items db3 !! item b = Some true.
Proof.
  intros Hs1 Hs2 Hs3 Hid2 Hid3 Ha Hb Hst Hl Hbor Hne Hi Hlt [Htot Hearn] db3.
  subst db3.
  rewrite (updateBookingStatus_approve r1 db b len bor it) by assumption.
  cbv zeta. rewrite (pre_save_ok_dates b b) by auto. cbn [fst].
  set (bor1 := inc_balance_push (- totalAmount (pricing b))
                                (payment_tx r1 b it) bor).
  set (db1 := mkDb _ _ _).
  rewrite (updateBookingStatus_pickup r2 db1 (approved_booking r1 b)
             (set_isAvailable false it));
    [ | exact Hs2 | rewrite Hid2; apply lookup_insert_eq | reflexivity
      | apply lookup_insert_eq ].
  cbv zeta. rewrite (pre_save_ok_dates b (approved_booking r1 b)) by auto.
  cbn [fst]. subst db1. cbn [users items bookings].
  set (db2 := mkDb _ _ _).
  rewrite (updateBookingStatus_complete r3 db2 (active_booking r2 (approved_booking r1 b))
             len (set_isAvailable false (set_isAvailable false it)));
    [ | exact Hs3 | rewrite Hid3, <- Hid2; apply lookup_insert_eq | reflexivity
      | subst db2; cbn; rewrite lookup_insert_ne by congruence; exact Hl
      | subst db2; cbn; rewrite lookup_insert_eq; now eexists
      | subst db2; cbn; apply lookup_insert_eq ].
  cbv zeta.
  rewrite (pre_save_ok_dates b (active_booking r2 (approved_booking r1 b)))
    by auto.
  cbn [fst]. subst db2. cbn [users items bookings].
  change (lender (active_booking r2 (approved_booking r1 b))) with (lender b).
  change (borrower (active_booking r2 (approved_booking r1 b)))
    with (borrower b).
  change (item (active_booking r2 (approved_booking r1 b))) with (item b).
  change (item (approved_booking r1 b)) with (item b).
  eexists _, _. split; [|split].
  - rewrite lookup_alter_ne by congruence. apply lookup_insert_eq.
  - rewrite lookup_alter, decide_True by reflexivity.
    rewrite lookup_insert_ne by exact Hne.
    rewrite lookup_insert_eq. reflexivity.
  - subst bor1. simpl. rewrite <- !app_assoc. simpl.
    rewrite Hid3, <- Hid2. rewrite !lookup_insert_eq. simpl.
    repeat split; try reflexivity; lia.
Qed.

(** Booking 100 from request to completion: the borrower pays 350 + 18,
    the lender receives 350 - 18. *)
Lemma rental_lifecycle_balances_witness :
  exists len' bor',
    users (fst (updateBookingStatus complete_100
             (fst (updateBookingStatus pickup_100
                (fst (updateBookingStatus approve_100 scn_pending))))))
      !! 1%N = Some len'
    /\ users (fst (updateBookingStatus complete_100
                (fst (updateBookingStatus pickup_100
                   (fst (updateBookingStatus approve_100 scn_pending))))))
         !! 2%N = Some bor'
    /\ balance (wallet bor') = 1000 - (350 + 18)
    /\ balance (wallet len') = 1000 + (350 - 18).
Proof.
  assert (H := rental_lifecycle_balances approve_100 pickup_100 complete_100
                 scn_pending scn_b100_pending new_User new_User drill
                 eq_refl eq_refl eq_refl eq_refl eq_refl eq_refl eq_refl
                 eq_refl eq_refl eq_refl).
  cbv zeta in H.
  destruct H as (len' & bor' & H1 & H2 & H3 & H4 & _);
    [discriminate | reflexivity | reflexivity | split; reflexivity |].
  exists len', bor'. repeat split; assumption.
Defined.

(** Approval followed by the lender's cancellation is a round trip for
    the money, for integer amounts: the borrower's balance is what it was,
    with the debit and the refund both in the history; the item is flagged
    available and the booking is cancelled.  The deposit flag stays
    set. *)
Theorem approve_then_cancel_restores r1 r2 db b len bor it :
  us_status r1 = "approved" -> us_status r2 = "cancelled" ->
  us_id r2 = us_id r1 ->
  us_user r1 = lender b -> us_user r2 = lender b ->
  bookings db !! us_id r1 = Some b ->
  status b = pending ->
  users db !! lender b = Some len ->
  users db !! borrower b = Some bor ->
  items db !! item b = Some it ->
  startDate b < endDate b ->
  let db2 := fst (updateBookingStatus r2 (fst (updateBookingStatus r1 db))) in
  users db2 !! borrower b
  = Some (mkUser (mkWallet (balance (wallet bor))
                           (transactions (wallet bor)
                            ++ [payment_tx r1 b it; refund_tx r2 b it]))
                 (stats_totalEarnings bor))
  /\ (forall u, u <> borrower b -> users db2 !! u = users db !! u)
  /\ item_isAvailable <$> items db2 !! item b = Some true
  /\ (fun b' => (status b', depositPaid (payment b')))
       <$> bookings db2 !! us_id r1
     = Some (cancelled, true).
Proof.
  intros Hs1 Hs2 Hid Ha1 Ha2 Hb Hst Hl Hbor Hi Hlt db2. subst db2.
  rewrite (updateBookingStatus_approve r1 db b len bor it) by assumption.
  cbv zeta. rewrite (pre_save_ok_dates b b) by auto. cbn [fst].
  set (bor1 := inc_balance_push (- totalAmount (pricing b))
                                (payment_tx r1 b it) bor).
  set (db1 := mkDb _ _ _).
  assert (Hl1 : is_Some (users db1 !! lender b)).
  { subst db1. cbn. rewrite lookup_insert. case_decide; [now eexists|].
    rewrite Hl. now eexists. }
  destruct Hl1 as [len1 Hl1].
  rewrite (updateBookingStatus_cancel r2 db1 (approved_booking r1 b) len1
             (set_isAvailable false it));
    [ | exact Hs2 | rewrite Hid; apply lookup_insert_eq | exact Ha2
      | exact Hl1 | apply lookup_insert_eq
      | intros _; subst db1; cbn; rewrite lookup_insert_eq; now eexists ].
  cbv zeta. rewrite (pre_save_ok_dates b (approved_booking r1 b)) by auto.
  cbn [fst]. subst db1. cbn.
  rewrite Hid. rewrite !lookup_insert_eq.
  split; [|split; [|split]].
  - rewrite lookup_alter, decide_True by reflexivity.
    rewrite lookup_insert_eq. subst bor1.
    unfold inc_balance_push, refund_tx, payment_tx. simpl.
    rewrite <- app_assoc. simpl. do 3 f_equal. lia.
  - intros u Hu. rewrite lookup_alter_ne, lookup_insert_ne by congruence.
    reflexivity.
  - rewrite lookup_alter, decide_True by reflexivity.
    now rewrite lookup_insert_eq.
  - reflexivity.
Qed.

(** Booking 100 approved and then cancelled: the borrower is back at
    1000. *)
Lemma approve_then_cancel_restores_witness :
  users (fst (updateBookingStatus cancel_100
           (fst (updateBookingStatus approve_100 scn_pending)))) !! 2%N
  = Some (mkUser (mkWallet 1000
                    [payment_tx approve_100 scn_b100_pending drill;
                     refund_tx cancel_100 scn_b100_pending drill]) 0).
Proof.
  refine (proj1 (approve_then_cancel_restores approve_100 cancel_100
                   scn_pending scn_b100_pending new_User new_User drill
                   _ _ _ _ _ _ _ _ _ _ _)); reflexivity.
Defined.

(** Why the two statements above are kept to integer amounts.  With a
    daily price of 1.01 the total of five days is 205.05: from a balance
    of 1000.1 the debit and the refund leave 1000.0999999999999.  The
    total of seven days is 207.07 with subtotal 7.07 and no fee: from
    1000 the debit and the deposit refund leave 992.9300000000001, while
    1000 - (subtotal + platformFee) is 992.93. *)
Lemma round_trips_drift_with_fractions :
  let p := Doubles.priced_1_01_five in
  let q := Doubles.priced_1_01_seven in
  (Doubles.totalAmount p = 205.05
   /\ Doubles.balance
        (Doubles.cancellation_refund p
           (Doubles.approval_debit p (Doubles.mkWallet 1000.1 [])))
      = 1000.0999999999999)%float
  /\ (Doubles.totalAmount q = 207.07 /\ Doubles.subtotal q = 7.07
      /\ Doubles.platformFee q = 0
      /\ Doubles.balance
           (Doubles.deposit_refund q
              (Doubles.approval_debit q (Doubles.mkWallet 1000 [])))
         = 992.9300000000001
      /\ 1000 - (Doubles.subtotal q + Doubles.platformFee q) = 992.93)%float.
Proof. repeat split; vm_compute; reflexivity. Qed.

(** ** More of createBooking *)

(** createBooking either answers something other than 201 and leaves the
    database as it was, or it has passed every check and inserted the one
    new booking. *)
Lemma createBooking_cases req db :
  (exists r, createBooking req db = (db, r) /\ r <> Created)
  \/ (exists it bor,
        passes_entry_checks req db it
        /\ ~ spec_date_conflict req db
        /\ users db !! cb_user req = Some bor
        /\ totalAmount (pricing (priced_booking req it)) <= balance (wallet bor)
        /\ cb_startDate req < cb_endDate req
        /\ bookings db !! cb_newId req = None
        /\ createBooking req db
           = (mkDb (users db) (items db)
                   (<[cb_newId req := created_booking req it]> (bookings db)),
              Created)).
Proof.
  unfold createBooking. handler_unfold. unfold Booking_findOne.
  destruct (cb_valid req) eqn:Hv; simpl;
    [|left; eexists; split; [reflexivity|discriminate]].
  destruct (items db !! cb_itemId req) as [it|] eqn:Hi; simpl;
    [|left; eexists; split; [reflexivity|discriminate]].
  destruct (users db !! item_owner it) as [own|] eqn:Ho; simpl;
    [|left; eexists; split; [reflexivity|discriminate]].
  destruct (N.eqb_spec (item_owner it) (cb_user req)) as [|Hne]; simpl;
    [left; eexists; split; [reflexivity|discriminate]|].
  destruct (item_isAvailable it) eqn:Hav; simpl;
    [|left; eexists; split; [reflexivity|discriminate]].
  destruct (List.find _ _) as [kb|] eqn:F; simpl;
    [left; eexists; split; [reflexivity|discriminate]|].
  destruct (users db !! cb_user req) as [bor|] eqn:Hbor; simpl;
    [|left; eexists; split; [reflexivity|discriminate]].
  match goal with
  | |- context [if ?c then _ else _] => destruct c eqn:Hbal
  end; simpl; [left; eexists; split; [reflexivity|discriminate]|].
  unfold Booking_save_new, pre_save_ok. simpl.
  destruct (Z.ltb_spec (cb_startDate req) (cb_endDate req)) as [Hlt|];
    [|left; eexists; split; [reflexivity|discriminate]].
  destruct (bookings db !! cb_newId req) eqn:Hnew; simpl;
    [left; eexists; split; [reflexivity|discriminate]|].
  right. exists it, bor. split; [|split; [|split; [|split; [|split; [|split]]]]];
    try assumption; try reflexivity.
  - repeat split; try assumption. now exists own.
  - intros (id & b & Hb & Hc).
    pose proof (findOne_None _ _ F id b Hb) as Hf.
    apply conflict_filter_true in Hc. congruence.
  - apply Z.ltb_ge in Hbal. exact Hbal.
Qed.

(** createBooking never writes a wallet or an item, and it writes a
    booking only when it answers 201: every refusal leaves the database
    as it was. *)
Theorem createBooking_all_or_nothing req db :
  snd (createBooking req db) <> Created ->
  fst (createBooking req db) = db.
Proof.
  intros Hr. destruct (createBooking_cases req db) as
    [(r & -> & _) | (it & bor & _ & _ & _ & _ & _ & _ & E)].
  - reflexivity.
  - rewrite E in Hr. now destruct Hr.
Qed.

(** The request of scenario A is refused and leaves no trace. *)
Lemma createBooking_all_or_nothing_witness :
  fst (createBooking request_A scn_A) = scn_A.
Proof.
  apply (createBooking_all_or_nothing request_A scn_A).
  vm_compute. discriminate.
Defined.

(** A 201 means that the request was valid, the item exists with its
    owner, is not the requester's own and is flagged available, no
    approved or active booking overlaps, the balance covers the computed
    total, the range is not empty and the id is new; the database then
    differs by exactly one booking, pending, unpaid, priced by
    calculatePricing, lent by the item's owner, with one timeline entry.
    No wallet and no item is written: the money is neither taken nor
    held. *)
Theorem created_means_checked req db :
  snd (createBooking req db) = Created ->
  exists it bor,
    passes_entry_checks req db it
    /\ ~ spec_date_conflict req db
    /\ users db !! cb_user req = Some bor
    /\ totalAmount (pricing (priced_booking req it)) <= balance (wallet bor)
    /\ cb_startDate req < cb_endDate req
    /\ bookings db !! cb_newId req = None
    /\ fst (createBooking req db)
       = mkDb (users db) (items db)
              (<[cb_newId req := created_booking req it]> (bookings db))
    /\ status (created_booking req it) = pending
    /\ payment (created_booking req it) = mkPayment false false false false
    /\ borrower (created_booking req it) = cb_user req
    /\ lender (created_booking req it) = item_owner it
    /\ item (created_booking req it) = cb_itemId req
    /\ timeline (created_booking req it)
       = [mkTimelineEntry "pending" "Booking request created" (cb_now req)].
Proof.
  intros Hr. destruct (createBooking_cases req db) as
    [(r & E & Hne) | (it & bor & H1 & H2 & H3 & H4 & H5 & H6 & E)].
  - rewrite E in Hr. now destruct Hne.
  - exists it, bor. rewrite E.
    repeat (split; [first [assumption | reflexivity]|]). reflexivity.
Qed.

(** The first request of the scenario. *)
Lemma created_means_checked_witness :
  exists it,
    fst (createBooking (mkCreateBookingReq 2%N true 10%N 0 (5 * DAY) 100%N 1)
           (run (firstn 4 scn_setup) empty_db))
    = mkDb (users (run (firstn 4 scn_setup) empty_db))
           (items (run (firstn 4 scn_setup) empty_db))
           (<[100%N := created_booking
                         (mkCreateBookingReq 2%N true 10%N 0 (5 * DAY) 100%N 1)
                         it]>
              (bookings (run (firstn 4 scn_setup) empty_db))).
Proof.
  destruct (created_means_checked
              (mkCreateBookingReq 2%N true 10%N 0 (5 * DAY) 100%N 1)
              (run (firstn 4 scn_setup) empty_db))
    as (it & bor & _ & _ & _ & _ & _ & _ & E & _).
  - vm_compute. reflexivity.
  - exists it. exact E.
Defined.

(** A request whose end date is not after its start date is never
    stored; when nothing else stops it, it gets as far as the pre-save
    hook and is answered 500, not a validation error. *)
Theorem empty_range_is_never_stored req db :
  cb_endDate req <= cb_startDate req ->
  fst (createBooking req db) = db
  /\ snd (createBooking req db) <> Created
  /\ (forall it bor,
        passes_entry_checks req db it ->
        ~ spec_date_conflict req db ->
        users db !! cb_user req = Some bor ->
        totalAmount (pricing (priced_booking req it)) <= balance (wallet bor) ->
        snd (createBooking req db) = Res 500 "Server error creating booking").
Proof.
  intros Hle.
  destruct (createBooking_cases req db) as
    [(r & E & Hne) | (it & bor & _ & _ & _ & _ & Hlt & _)]; [|lia].
  rewrite E. split; [reflexivity|]. split; [exact Hne|].
  intros it bor Hentry Hno Hbor Hbal.
  rewrite (createBooking_after_entry req db it Hentry) in E.
  rewrite (no_conflict_found req db Hno), Hbor in E.
  apply Z.ltb_ge in Hbal. rewrite Hbal in E.
  unfold try_catch, bind, Booking_save_new, pre_save_ok in E.
  replace (startDate _ <? endDate _) with false in E
    by (symmetry; simpl; apply Z.ltb_ge; exact Hle).
  now inversion E.
Qed.

(** A request for the saw from a day to the same day. *)
Lemma empty_range_is_never_stored_witness :
  fst (createBooking request_empty_range scn2) = scn2
  /\ snd (createBooking request_empty_range scn2)
     = Res 500 "Server error creating booking".
Proof.
  destruct (empty_range_is_never_stored request_empty_range scn2
              (Z.le_refl _)) as (H1 & _ & H3).
  split; [exact H1|]. apply (H3 saw new_User).
  - repeat split; try (vm_compute; reflexivity).
    + exists new_User. vm_compute. reflexivity.
    + discriminate.
  - intros (id & b & Hb & Hit & Hst & _).
    assert (E : bookings scn2 !! id = Some b -> item b = 12%N ->
                status b = pending).
    { clear. intros Hb Hit. revert Hb.
      assert (Hall : map_Forall (fun _ b => item b = 12%N -> status b = pending)
                                (bookings scn2)).
      { apply map_Forall_to_list. vm_compute.
        repeat constructor; simpl; intros; try reflexivity; discriminate. }
      intros Hb. exact (Hall id b Hb Hit). }
    rewrite (E Hb Hit) in Hst. destruct Hst; discriminate.
  - vm_compute. reflexivity.
  - vm_compute. discriminate.
Defined.

(** ** addBookingMessage *)

(** Only the borrower and the lender of a booking can write in its
    conversation: from anyone else the request is answered 403 and
    nothing is written.  A message of one of the two goes to the end of
    the conversation; the rest of the booking, the wallets and the items
    are as before. *)
Theorem message_from_parties_only req db b :
  bookings db !! am_id req = Some b ->
  startDate b < endDate b ->
  (am_user req <> borrower b -> am_user req <> lender b ->
   addBookingMessage req db
   = (db, Res 403 "Not authorized to message in this booking"))
  /\ (am_user req = borrower b \/ am_user req = lender b ->
      addBookingMessage req db
      = (mkDb (users db) (items db)
              (<[am_id req :=
                   mkBooking (item b) (borrower b) (lender b) (startDate b)
                     (endDate b) (status b) (pricing b) (payment b) (timeline b)
                     (messages b
                      ++ [mkMessage (am_user req) (am_message req) (am_now req)])]>
                 (bookings db)),
         Res 200 "Message added successfully")).
Proof.
  intros Hb Hlt. apply Z.ltb_lt in Hlt.
  unfold addBookingMessage. handler_unfold. rewrite Hb. cbn beta iota.
  split.
  - intros Hnb Hnl.
    destruct (N.eqb_spec (borrower b) (am_user req)) as [E|_];
      [now destruct Hnb|].
    destruct (N.eqb_spec (lender b) (am_user req)) as [E|_];
      [now destruct Hnl|].
    reflexivity.
  - intros Hparty.
    assert (Hc : negb (borrower b =? am_user req)%N
                 && negb (lender b =? am_user req)%N = false).
    { destruct Hparty as [-> | ->]; rewrite N.eqb_refl; simpl;
        [reflexivity | apply andb_false_r]. }
    rewrite Hc. simpl. unfold Booking_save, pre_save_ok. simpl.
    rewrite Hlt. reflexivity.
Qed.

(** User 3 cannot write in booking 100. *)
Lemma message_from_parties_only_witness :
  addBookingMessage (mkAddMessageReq 3%N 100%N "hello" 9) scn_approved
  = (scn_approved, Res 403 "Not authorized to message in this booking").
Proof.
  apply (proj1 (message_from_parties_only
                  (mkAddMessageReq 3%N 100%N "hello" 9) scn_approved
                  scn_b100_approved eq_refl eq_refl)); discriminate.
Defined.

(** ** addToWallet *)

(** A top-up of zero or of a negative amount is refused with 400 and
    nothing is written; a top-up of a positive amount adds exactly that
    amount to the requester's balance, with one credit transaction of that
    amount without booking, and writes nothing else. *)
Theorem topup_adds_the_amount req db u :
  users db !! aw_user req = Some u ->
  (aw_amount req <= 0 ->
   addToWallet req db = (db, Res 400 "Amount must be a positive number"))
  /\ (0 < aw_amount req ->
      fst (addToWallet req db)
      = mkDb (<[aw_user req :=
                  mkUser (mkWallet (balance (wallet u) + aw_amount req)
                                   (transactions (wallet u) ++ [topup_tx req]))
                         (stats_totalEarnings u)]> (users db))
             (items db) (bookings db)
      /\ tx_type (topup_tx req) = credit
      /\ tx_amount (topup_tx req) = aw_amount req
      /\ tx_bookingId (topup_tx req) = None
      /\ exists msg, snd (addToWallet req db) = Res 200 msg).
Proof.
  intros Hu. unfold addToWallet. handler_unfold. split.
  - intros Hle.
    replace ((aw_amount req =? 0) || (aw_amount req <=? 0)) with true;
      [reflexivity|].
    symmetry. apply orb_true_iff. right. now apply Z.leb_le.
  - intros Hpos.
    replace ((aw_amount req =? 0) || (aw_amount req <=? 0)) with false.
    + simpl. rewrite (alter_Some _ _ _ _ Hu), lookup_insert_eq. simpl.
      repeat split. eexists. reflexivity.
    + symmetry. apply orb_false_iff. split; [apply Z.eqb_neq | apply Z.leb_gt];
        lia.
Qed.

(** User 2 of the scenario adds 50, then tries to add -50. *)
Lemma topup_adds_the_amount_witness :
  (fun u => balance (wallet u))
    <$> users (fst (addToWallet (mkAddToWalletReq 2%N 50 9) scn_approved)) !! 2%N
  = Some (432 + 50)
  /\ addToWallet (mkAddToWalletReq 2%N (-50) 9) scn_approved
     = (scn_approved, Res 400 "Amount must be a positive number").
Proof.
  split.
  - destruct (proj2 (topup_adds_the_amount (mkAddToWalletReq 2%N 50 9)
                       scn_approved scn_borrower_approved eq_refl) eq_refl)
      as (E & _).
    rewrite E. cbn [users]. rewrite lookup_insert_eq. reflexivity.
  - apply (proj1 (topup_adds_the_amount (mkAddToWalletReq 2%N (-50) 9)
                    scn_approved scn_borrower_approved eq_refl)).
    discriminate.
Defined.

(** ** More of extendRentalPeriod *)

(** An extension is all or nothing: unless the answer is the 200 of a
    successful extension, no booking and no wallet is written. *)
Theorem extension_all_or_nothing req db :
  snd (extendRentalPeriod req db) <> Extended ->
  fst (extendRentalPeriod req db) = db.
Proof.
  unfold extendRentalPeriod, Extended. handler_unfold.
  destruct (bookings db !! er_bookingId req) as [b|]; simpl; [|reflexivity].
  destruct (items db !! item b) as [it|]; simpl; [|reflexivity].
  destruct (item_owner it =? er_user req)%N; simpl; [|reflexivity].
  destruct (Status_eqb (status b) approved || Status_eqb (status b) active);
    simpl; [|reflexivity].
  destruct (Z.leb_spec (er_newEnd req) (startDate b)) as [|Hstart]; simpl;
    [reflexivity|].
  destruct (er_newEnd req <=? endDate b); simpl; [reflexivity|].
  destruct (users db !! borrower b) as [bor|]; simpl; [|reflexivity].
  match goal with
  | |- context [if ?c then _ else _] => destruct c
  end; simpl; [reflexivity|].
  unfold Booking_save, pre_save_ok. simpl.
  destruct (Z.ltb_spec (startDate b) (er_newEnd req)) as [_|]; [|lia]. simpl.
  intros H. now destruct H.
Qed.

(** The borrower of booking 100 cannot extend it: only the owner of the
    item can. *)
Lemma extension_all_or_nothing_witness :
  fst (extendRentalPeriod (mkExtendReq 2%N 100%N (6 * DAY) "" 9) scn_active)
  = scn_active.
Proof.
  apply (extension_all_or_nothing (mkExtendReq 2%N 100%N (6 * DAY) "" 9)
           scn_active).
  vm_compute. discriminate.
Defined.

(** ** toggleUserSuspension *)

(** toggleUserSuspension writes no wallet and no item.  When it suspends
    (the user exists, is no admin and was not suspended), each pending or
    approved booking in which the user is borrower or lender becomes
    cancelled, with one more timeline entry and its payment flags and
    pricing as they were, and every other booking is as before: a
    borrower debited at approval is not refunded, and an item closed at
    approval stays closed.  When it lifts a suspension, it clears the
    flag and writes nothing else; an unknown user is answered 404 and an
    admin 400, with nothing written. *)
Theorem suspension_cancels_without_refund req st :
  let st' := fst (toggleUserSuspension req st) in
  let user := account_of st (su_user req) in
  users (store st') = users (store st)
  /\ items (store st') = items (store st)
  /\ (is_Some (users (store st) !! su_user req) ->
      role_is_admin user = false ->
      isSuspended user = false ->
      snd (toggleUserSuspension req st) = Res 200 "User suspended successfully"
      /\ isSuspended (account_of st' (su_user req)) = true
      /\ forall id b,
           bookings (store st) !! id = Some b ->
           ((borrower b = su_user req \/ lender b = su_user req) ->
            (status b = pending \/ status b = approved) ->
            exists b',
              bookings (store st') !! id = Some b'
              /\ status b' = cancelled
              /\ payment b' = payment b /\ pricing b' = pricing b
              /\ timeline b'
                 = timeline b
                   ++ [mkTimelineEntry "cancelled"
                         ("Cancelled due to user suspension: "
                          +:+ su_reason req)
                         (su_now req)])
           /\ ((borrower b <> su_user req /\ lender b <> su_user req)
               \/ (status b <> pending /\ status b <> approved) ->
               bookings (store st') !! id = Some b))
  /\ (is_Some (users (store st) !! su_user req) ->
      role_is_admin user = false ->
      isSuspended user = true ->
      snd (toggleUserSuspension req st)
      = Res 200 "User unsuspended successfully"
      /\ isSuspended (account_of st' (su_user req)) = false
      /\ store st' = store st)
  /\ (users (store st) !! su_user req = None ->
      toggleUserSuspension req st = (st, Res 404 "User not found"))
  /\ (is_Some (users (store st) !! su_user req) ->
      role_is_admin user = true ->
      toggleUserSuspension req st = (st, Res 400 "Cannot suspend admin users")).
Proof.
  intros st' user. subst st' user. unfold toggleUserSuspension.
  destruct (users (store st) !! su_user req) as [u|] eqn:Hu.
  2:{ simpl. split; [reflexivity|]. split; [reflexivity|].
      split; [intros [? ?]; discriminate|].
      split; [intros [? ?]; discriminate|].
      split; [reflexivity|]. intros [? ?]; discriminate. }
  destruct (role_is_admin (account_of st (su_user req))) eqn:Hadmin.
  { simpl. split; [reflexivity|]. split; [reflexivity|].
    split; [intros _ ?; discriminate|]. split; [intros _ ?; discriminate|].
    split; [intros ?; discriminate|]. intros _ _. reflexivity. }
  destruct (isSuspended (account_of st (su_user req))) eqn:Hsusp; simpl.
  - split; [reflexivity|]. split; [reflexivity|].
    split; [intros _ _ ?; discriminate|].
    split; [|split; [intros ?; discriminate|intros _ ?; discriminate]].
    intros _ _ _. split; [reflexivity|]. split; [|reflexivity].
    unfold account_of. simpl. now rewrite lookup_insert_eq.
  - split; [reflexivity|]. split; [reflexivity|].
    split; [|split; [intros _ _ ?; discriminate
                    |split; [intros ?; discriminate|intros _ ?; discriminate]]].
    intros _ _ _. split; [reflexivity|]. split.
    { unfold account_of. simpl. now rewrite lookup_insert_eq. }
    intros id b Hb. rewrite lookup_fmap.
    assert (E : bookings (store st) !! id = Some b) by exact Hb.
    rewrite E. simpl. unfold suspend_update. split.
    + intros Hparty Hst.
      assert (Hc : ((borrower b =? su_user req)%N
                    || (lender b =? su_user req)%N)
                   && (Status_eqb (status b) pending
                       || Status_eqb (status b) approved) = true).
      { apply andb_true_iff. split; apply orb_true_iff.
        - destruct Hparty as [-> | ->]; rewrite N.eqb_refl; auto.
        - destruct Hst as [-> | ->]; auto. }
      rewrite Hc. eexists. split; [reflexivity|]. now repeat split.
    + intros Hno.
      assert (Hc : ((borrower b =? su_user req)%N
                    || (lender b =? su_user req)%N)
                   && (Status_eqb (status b) pending
                       || Status_eqb (status b) approved) = false).
      { apply andb_false_iff. destruct Hno as [[Hb1 Hl1] | [Hp Ha]].
        - left. apply orb_false_iff. split; now apply N.eqb_neq.
        - right. destruct (status b); try reflexivity;
            [now destruct Hp | now destruct Ha]. }
      now rewrite Hc.
Qed.

(** The borrower of the approved booking 100 is suspended: the booking
    is cancelled, the 568 stay debited (balance 432) and the drill stays
    closed; the same request sent again lifts the suspension and writes
    no booking. *)
Lemma suspension_cancels_without_refund_witness :
  snd (toggleUserSuspension suspend_2 scn_admin)
  = Res 200 "User suspended successfully"
  /\ status <$> bookings (store (fst (toggleUserSuspension suspend_2 scn_admin)))
                !! 100%N
     = Some cancelled
  /\ users (store (fst (toggleUserSuspension suspend_2 scn_admin)))
     = users scn_approved
  /\ (fun u => balance (wallet u)) <$> users scn_approved !! 2%N = Some 432
  /\ item_isAvailable
     <$> items (store (fst (toggleUserSuspension suspend_2 scn_admin))) !! 10%N
     = Some false
  /\ store (fst (toggleUserSuspension suspend_2
                   (fst (toggleUserSuspension suspend_2 scn_admin))))
     = store (fst (toggleUserSuspension suspend_2 scn_admin)).
Proof.
  assert (H := suspension_cancels_without_refund suspend_2 scn_admin).
  cbv zeta in H. destruct H as (Hu & Hi & Hs & _).
  destruct Hs as (Hr & Hflag & Hbk).
  { eexists. vm_compute. reflexivity. }
  { reflexivity. }
  { reflexivity. }
  assert (H2 := suspension_cancels_without_refund suspend_2
                  (fst (toggleUserSuspension suspend_2 scn_admin))).
  cbv zeta in H2. destruct H2 as (_ & _ & _ & Hun & _).
  destruct Hun as (_ & _ & Hstore).
  { eexists. vm_compute. reflexivity. }
  { reflexivity. }
  { exact Hflag. }
  destruct (proj1 (Hbk 100%N scn_b100_approved ltac:(vm_compute; reflexivity)))
    as (b' & Hb' & Hst & _).
  { left. reflexivity. }
  { right. reflexivity. }
  split; [exact Hr|]. split; [rewrite Hb'; simpl; now rewrite Hst|].
  split; [exact Hu|]. split; [reflexivity|].
  split; [rewrite Hi; vm_compute; reflexivity|].
  exact Hstore.
Defined.

(** ** More of calculatePricing *)

Lemma Math_round_div_spec n d :
  0 < d -> 2 * n - d < 2 * d * Math_round_div n d <= 2 * n + d.
Proof.
  intros Hd. unfold Math_round_div.
  pose proof (Z.div_mod (2 * n + d) (2 * d) ltac:(lia)) as E.
  pose proof (Z.mod_pos_bound (2 * n + d) (2 * d) ltac:(lia)) as B. lia.
Qed.

(** The days charged are the whole days needed to cover the range: at
    least one for any range with the end after the start, a started day
    counted in full, and exactly n for a range of n days. *)
Theorem calculatePricing_days dp iv pct b :
  startDate b < endDate b ->
  let p := pricing (calculatePricing dp iv pct b) in
  1 <= totalDays p
  /\ (totalDays p - 1) * MS_PER_DAY < endDate b - startDate b
     <= totalDays p * MS_PER_DAY
  /\ (forall n, endDate b - startDate b = n * MS_PER_DAY -> totalDays p = n)
  /\ dailyPrice p = dp
  /\ subtotal p = dp * totalDays p.
Proof.
  intros Hlt p. subst p. simpl.
  pose proof (Math_ceil_div_spec (endDate b - startDate b) MS_PER_DAY eq_refl)
    as [Hlo Hhi].
  assert (HD : MS_PER_DAY = 86400000) by reflexivity.
  split; [nia|]. split; [split; assumption|]. split; [|split; reflexivity].
  intros n Hn. nia.
Qed.

(** Five days are charged for the five-day example. *)
Lemma calculatePricing_days_witness :
  totalDays (pricing (calculatePricing 100 10000 20 five_days)) = 5.
Proof.
  destruct (calculatePricing_days 100 10000 20 five_days eq_refl)
    as (_ & _ & H & _).
  apply H. reflexivity.
Defined.

(** [round53 n] is n when n has at most 53 bits; otherwise it is a
    multiple k * 2^sh of the spacing 2^sh of the doubles around n, not
    below any multiple that n reaches and within half a spacing of n. *)
Lemma round53_spec n :
  0 < n ->
  round53 n = n
  \/ exists sh k,
       let P := 2 ^ sh in
       0 < sh /\ 0 < P /\ P * 2 ^ 52 <= n /\ round53 n = k * P
       /\ (forall m, m * P <= n -> m <= k)
       /\ 2 * (k * P) <= 2 * n + P.
Proof.
  intros Hn. unfold round53.
  destruct (Z.leb_spec (Z.log2 n - 52) 0) as [|Hsh]; [left; reflexivity|].
  right. set (sh := Z.log2 n - 52) in *.
  exists sh.
  assert (HP : 0 < 2 ^ sh) by (apply Z.pow_pos_nonneg; lia).
  assert (Hlog : 2 ^ sh * 2 ^ 52 <= n).
  { rewrite <- Z.pow_add_r by lia. replace (sh + 52) with (Z.log2 n) by lia.
    apply Z.log2_spec. exact Hn. }
  assert (Hhalf : 2 ^ sh = 2 * 2 ^ (sh - 1)).
  { replace sh with (1 + (sh - 1)) at 1 by lia.
    rewrite Z.pow_add_r by lia. reflexivity. }
  pose proof (Z.div_mod n (2 ^ sh) ltac:(lia)) as E.
  pose proof (Z.mod_pos_bound n (2 ^ sh) HP) as B.
  set (P := 2 ^ sh) in *. set (q := n / P) in *. set (r := n mod P) in *.
  set (h := 2 ^ (sh - 1)) in *.
  assert (Hq : forall m, m * P <= n -> m <= q).
  { intros m Hm. apply Z.div_le_lower_bound; lia. }
  destruct ((h <? r) || ((r =? h) && Z.odd q)) eqn:C.
  - exists (q + 1). cbv zeta. fold P. repeat split; try assumption.
    + intros m Hm. specialize (Hq m Hm). lia.
    + assert (h <= r).
      { apply orb_true_iff in C as [C|C].
        - apply Z.ltb_lt in C. lia.
        - apply andb_true_iff in C as [C _]. apply Z.eqb_eq in C. lia. }
      nia.
  - exists q. cbv zeta. fold P. repeat split; try assumption. nia.
Qed.

Lemma round_half_up_twentieth s :
  Math_round_div (s * 5) 100 = (s + 10) / 20.
Proof.
  unfold Math_round_div.
  replace (2 * (s * 5) + 100) with ((s + 10) * 10) by lia.
  replace (2 * 100) with (20 * 10) by lia.
  apply Z.div_mul_cancel_r; lia.
Qed.

(** Up to 2^52 the double product subtotal * 0.05 and Math.round give
    the twentieth of the subtotal rounded half up, as exact arithmetic
    would: the error of the literal 0.05 and the rounding of the product
    together stay below the distance of subtotal/20 from a half. *)
Lemma platformFee_exact s :
  0 <= s <= 2 ^ 52 ->
  Math_round_div (times_0_05 s) (2 ^ 56) = (s + 10) / 20.
Proof.
  intros Hs.
  destruct (Z.eq_dec s 0) as [->|Hs0]; [reflexivity|].
  unfold times_0_05, to_double.
  assert (HN : 0 < s * NUM_0_05) by (unfold NUM_0_05; lia).
  rewrite Z.abs_eq, (Z.sgn_pos _ HN), Z.mul_1_l by lia.
  pose proof (Z.div_mod (s + 10) 20 ltac:(lia)) as E.
  pose proof (Z.mod_pos_bound (s + 10) 20 eq_refl) as B.
  set (f := (s + 10) / 20) in *. set (t := (s + 10) mod 20) in *.
  assert (H52 : 2 ^ 52 = 4503599627370496) by reflexivity.
  assert (H55 : 2 ^ 55 = 36028797018963968) by reflexivity.
  assert (H56 : 2 ^ 56 = 72057594037927936) by reflexivity.
  assert (Hgoal : (2 * f - 1) * 2 ^ 55 <= round53 (s * NUM_0_05)
                  < (2 * f + 1) * 2 ^ 55).
  { destruct (round53_spec _ HN)
      as [->|(sh & k & Hsh & HP & Hlog & -> & Hk & Herr)].
    - unfold NUM_0_05. lia.
    - unfold NUM_0_05 in *. set (P := 2 ^ sh) in *.
      assert (Hsh55 : sh < 55).
      { apply (Z.pow_lt_mono_r_iff 2); [lia|lia|]. fold P. lia. }
      assert (HPP : 2 ^ 55 = 2 ^ (55 - sh) * P).
      { unfold P. rewrite <- Z.pow_add_r by lia. f_equal. lia. }
      split.
      + (* the lower end is a multiple of the spacing *)
        assert (Hm : (2 * f - 1) * 2 ^ (55 - sh) <= k).
        { apply Hk. rewrite <- Z.mul_assoc, <- HPP. lia. }
        rewrite HPP, Z.mul_assoc. nia.
      + nia. }
  unfold Math_round_div. symmetry. apply Z.div_unique with
    (r := 2 * round53 (s * NUM_0_05) + 2 ^ 56 - f * (2 * 2 ^ 56)); lia.
Qed.

(** For integer amounts in the range where the arithmetic of doubles is
    exact (a subtotal of at most 2^52, itemValue * depositPercentage
    between 0 and 2^53), a price that is not negative and a range with the
    end after the start: the platform fee is the twentieth of the subtotal
    rounded to the nearest unit (a half up), it is not negative and not
    above the subtotal, so the lender never earns a negative amount; the
    deposit is the percentage of the item value rounded to the nearest
    unit; and the total is the subtotal plus both. *)
Theorem calculatePricing_amounts dp iv pct b :
  0 <= dp ->
  startDate b < endDate b ->
  0 <= iv * pct <= 2 ^ 53 ->
  let p := pricing (calculatePricing dp iv pct b) in
  subtotal p <= 2 ^ 52 ->
  platformFee p = (subtotal p + 10) / 20
  /\ subtotal p - 10 < 20 * platformFee p <= subtotal p + 10
  /\ 0 <= platformFee p <= subtotal p
  /\ 0 <= lenderEarnings p <= subtotal p
  /\ iv * pct - 50 < 100 * depositAmount p <= iv * pct + 50
  /\ 0 <= depositAmount p
  /\ totalAmount p = subtotal p + depositAmount p + platformFee p
  /\ subtotal p <= totalAmount p.
Proof.
  intros Hdp Hlt Hiv p. subst p. simpl.
  pose proof (Math_ceil_div_spec (endDate b - startDate b) MS_PER_DAY eq_refl)
    as [Hlo Hhi].
  assert (HD : MS_PER_DAY = 86400000) by reflexivity.
  set (days := Math_ceil_div (endDate b - startDate b) MS_PER_DAY) in *.
  assert (Hdays : 1 <= days) by nia.
  assert (Hs : 0 <= dp * days) by nia.
  set (s := dp * days) in *.
  intros Hs52.
  pose proof (platformFee_exact s (conj Hs Hs52)) as Hfee.
  pose proof (Math_round_div_spec (s * 5) 100 eq_refl) as [Hf1 Hf2].
  rewrite round_half_up_twentieth, <- Hfee in Hf1, Hf2.
  pose proof (Math_round_div_spec (iv * pct) 100 eq_refl) as [Hd1 Hd2].
  set (fee := Math_round_div (times_0_05 s) (2 ^ 56)) in *.
  set (dep := Math_round_div (iv * pct) 100) in *.
  split; [exact Hfee|].
  repeat split; lia.
Qed.

(** The example of the specification: 500, 2000, 25, 2525 and 475. *)
Lemma calculatePricing_amounts_witness :
  pricing (calculatePricing 100 10000 20 five_days)
  = mkPricing 100 5 500 2000 25 2525 475
  /\ 0 <= lenderEarnings (pricing (calculatePricing 100 10000 20 five_days))
     <= subtotal (pricing (calculatePricing 100 10000 20 five_days)).
Proof.
  split; [reflexivity|].
  assert (H := calculatePricing_amounts 100 10000 20 five_days).
  cbv zeta in H. destruct H as (_ & _ & _ & H & _).
  - discriminate.
  - reflexivity.
  - vm_compute. split; discriminate.
  - vm_compute. discriminate.
  - exact H.
Defined.

(** Beyond that range the binary rounding shows: at a subtotal of
    7000000000000009 the fee the code computes is 350000000000001, one
    more than the twentieth rounded half up; the two embeddings of
    Math.round(subtotal * 0.05) agree on it. *)
Lemma platformFee_binary_rounding :
  Math_round_div (times_0_05 7000000000000009) (2 ^ 56) = 350000000000001
  /\ (7000000000000009 + 10) / 20 = 350000000000000
  /\ Doubles.Math_round (7000000000000009 * 0.05)%float
     = 350000000000001%float.
Proof. repeat split; vm_compute; reflexivity. Qed.

(** On the example of the specification the two embeddings of
    calculatePricing give the same pricing. *)
Lemma calculatePricing_embeddings_agree :
  pricing (calculatePricing 100 10000 20 five_days)
  = mkPricing 100 5 500 2000 25 2525 475
  /\ Doubles.calculatePricing 100 10000 20 0 432000000
     = Doubles.mkPricing 100 5 500 2000 25 2525 475.
Proof. split; vm_compute; reflexivity. Qed.

(** * Histories *)

(** ** Bookings are kept, and only grow *)

Lemma booking_evolves_refl b : booking_evolves b b.
Proof. unfold booking_evolves. repeat split; auto; try reflexivity; lia. Qed.

Lemma booking_evolves_trans b1 b2 b3 :
  booking_evolves b1 b2 -> booking_evolves b2 b3 -> booking_evolves b1 b3.
Proof.
  unfold booking_evolves.
  intros (A1 & A2 & A3 & A4 & A5 & A6 & A7 & A8 & A9 & A10 & A11 & A12 & A13 & A14)
         (B1 & B2 & B3 & B4 & B5 & B6 & B7 & B8 & B9 & B10 & B11 & B12 & B13 & B14).
  repeat split; try congruence; try lia; auto.
  - now transitivity (timeline b2).
  - now transitivity (messages b2).
Qed.

Ltac evolves_step :=
  unfold booking_evolves, set_depositPaid, set_settled; simpl;
  repeat split; auto; try reflexivity; try lia;
  try (apply prefix_app_r; reflexivity).

Lemma evolves_approved req b : booking_evolves b (approved_booking req b).
Proof. evolves_step. Qed.

Lemma evolves_cancelled req b : booking_evolves b (cancelled_booking req b).
Proof. evolves_step. Qed.

Lemma evolves_active req b : booking_evolves b (active_booking req b).
Proof. evolves_step. Qed.

Lemma evolves_completed req b : booking_evolves b (completed_booking req b).
Proof. evolves_step. Qed.

Lemma evolves_message m b : booking_evolves b (push_message m b).
Proof. evolves_step. Qed.

Lemma evolves_suspend req b : booking_evolves b (suspend_update req b).
Proof. unfold suspend_update. destruct (_ && _); evolves_step. Qed.

Lemma evolves_extended now st note ad ac newEnd b :
  endDate b <= newEnd ->
  booking_evolves b
    (addTimelineEntry now st note
       (set_pricing (extend_pricing ad ac (pricing (set_endDate newEnd b)))
                    (set_endDate newEnd b))).
Proof. intros H. evolves_step. Qed.

Section BookingHistory.
Variable db0 : Db.
Local Abbreviation Inv := (bookings_evolved db0).

Lemma hist_Booking_findById id :
  hoare Inv (Booking_findById id)
        (fun ob => forall b', ob = Some b' ->
                   forall b, bookings db0 !! id = Some b -> booking_evolves b b').
Proof.
  intros db HI. split; [exact HI|]. simpl. intros ob [= <-] b' Hb' b Hb.
  destruct (HI id b Hb) as (b'' & Hb'' & He).
  assert (E : Some b' = Some b'') by (rewrite <- Hb'; exact Hb'').
  injection E as ->. exact He.
Qed.

Lemma hist_Booking_save id b' :
  (forall b, bookings db0 !! id = Some b -> booking_evolves b b') ->
  hoare Inv (Booking_save id b') (fun _ => True).
Proof.
  intros Hev db HI. unfold Booking_save.
  destruct (pre_save_ok b'); simpl; [|auto].
  split; [|trivial]. intros i b Hb. simpl. rewrite lookup_insert.
  case_decide; [subst i; exists b'; split; [reflexivity | now apply Hev]|].
  now apply HI.
Qed.

Lemma hist_Booking_save_new id b' :
  hoare Inv (Booking_save_new id b') (fun _ => True).
Proof.
  intros db HI. unfold Booking_save_new.
  destruct (pre_save_ok b'); simpl; [|auto].
  destruct (bookings db !! id) eqn:E; simpl; [auto|].
  split; [|trivial]. intros i b Hb. simpl. rewrite lookup_insert.
  case_decide; [subst i|now apply HI].
  destruct (HI id b Hb) as (b'' & Hb'' & _).
  assert (X : @None Booking = Some b'') by (rewrite <- E; exact Hb'').
  discriminate.
Qed.

Lemma hist_keeps_bookings {A} (m : Handler A) :
  (forall db, bookings (fst (m db)) = bookings db) ->
  hoare Inv m (fun _ => True).
Proof.
  intros Hm db HI. split; [|trivial]. intros id b Hb. rewrite Hm.
  now apply HI.
Qed.

Ltac hstep :=
  first [ hoare_simple
        | (apply hist_keeps_bookings; reflexivity)
        | (apply hist_keeps_bookings; intros ?; unfold User_create;
           case_match; reflexivity)
        | apply hist_Booking_save_new ].

Ltac hseq := hoare_seq; [hstep|].

Lemma hist_updateBookingStatus req db :
  Inv db -> Inv (fst (updateBookingStatus req db)).
Proof.
  intros HI. unfold updateBookingStatus. apply hoare_try_catch; [|exact HI].
  eapply hoare_bind; [apply hist_Booking_findById|].
  intros [b|] Hb; [|hstep]. specialize (Hb b eq_refl).
  do 3 hseq.
  hoare_seq.
  { destruct (_ || _); [|hstep]. hseq. hstep. }
  eapply hoare_bind with (Q := fun b' => booking_evolves b b').
  - repeat match goal with
           | |- hoare _ (if ?c then _ else _) _ => destruct c
           end.
    + do 4 hseq. apply hoare_ret. apply (evolves_approved req).
    + hoare_seq.
      { destruct (depositPaid _); [|hstep]. do 2 hseq. hstep. }
      do 2 hseq. apply hoare_ret. apply (evolves_cancelled req).
    + do 2 hseq. apply hoare_ret. apply (evolves_active req).
    + do 7 hseq. apply hoare_ret. apply (evolves_completed req).
    + apply hoare_ret. apply booking_evolves_refl.
  - intros b' Hb'. hoare_seq; [|hstep]. apply hist_Booking_save.
    intros b0 Hb0. eapply booking_evolves_trans; eauto.
Qed.

Lemma hist_handle rq db : Inv db -> Inv (fst (handle rq db)).
Proof.
  destruct rq; simpl.
  - intros HI. unfold register. apply hoare_try_catch; [|exact HI].
    do 2 hseq. hstep.
  - intros HI. unfold addToWallet. apply hoare_try_catch; [|exact HI].
    do 4 hseq. hstep.
  - intros HI. unfold createBooking. apply hoare_try_catch; [|exact HI].
    do 2 hseq. destruct a0 as [it|]; [|hstep]. do 10 hseq. hstep.
  - apply hist_updateBookingStatus.
  - intros HI. unfold addBookingMessage. apply hoare_try_catch; [|exact HI].
    eapply hoare_bind; [apply hist_Booking_findById|].
    intros [b|] Hb; [|hstep]. specialize (Hb b eq_refl).
    hseq. hoare_seq; [|hstep]. apply hist_Booking_save.
    intros b0 Hb0. eapply booking_evolves_trans; [eauto|apply evolves_message].
  - intros HI. unfold extendRentalPeriod. apply hoare_try_catch; [|exact HI].
    eapply hoare_bind; [apply hist_Booking_findById|].
    intros [b|] Hb; [|hstep]. specialize (Hb b eq_refl).
    do 6 hseq.
    eapply hoare_bind with (Q := fun _ => (er_newEnd r <=? endDate b) = false).
    { unfold reject_if. destruct (_ <=? _); [hstep | now apply hoare_ret]. }
    intros _ Hend.
    do 3 hseq.
    hoare_seq; [|hstep]. apply hist_Booking_save.
    intros b0 Hb0. eapply booking_evolves_trans; [eauto|].
    apply evolves_extended. lia.
  - intros HI. unfold complaintRefund. apply hoare_try_catch; [|exact HI].
    hoare_seq; [|hstep]. destruct (negb _); hstep.
  - intros HI id b Hb. simpl. rewrite lookup_fmap.
    destruct (HI id b Hb) as (b' & -> & He). simpl.
    eexists. split; [reflexivity|].
    eapply booking_evolves_trans; [exact He | apply evolves_suspend].
  - intros HI. exact HI.
Qed.
End BookingHistory.

Lemma bookings_evolved_refl db : bookings_evolved db db.
Proof. intros id b Hb. exists b. split; [exact Hb | apply booking_evolves_refl]. Qed.

(** No request sequence deletes a booking or rewrites its past: a stored
    booking stays stored under its id with the same item, borrower, lender,
    start date, daily price, deposit and platform fee; its end date never
    moves back; a payment flag once set stays set; its timeline and its
    messages only grow at the end. *)
Theorem bookings_are_append_only rqs db id b :
  bookings db !! id = Some b ->
  exists b',
    bookings (run rqs db) !! id = Some b'
    /\ item b' = item b /\ borrower b' = borrower b /\ lender b' = lender b
    /\ startDate b' = startDate b /\ endDate b <= endDate b'
    /\ dailyPrice (pricing b') = dailyPrice (pricing b)
    /\ depositAmount (pricing b') = depositAmount (pricing b)
    /\ platformFee (pricing b') = platformFee (pricing b)
    /\ (depositPaid (payment b) = true -> depositPaid (payment b') = true)
    /\ (depositRefunded (payment b) = true
        -> depositRefunded (payment b') = true)
    /\ (finalPaymentMade (payment b) = true
        -> finalPaymentMade (payment b') = true)
    /\ (lenderPaid (payment b) = true -> lenderPaid (payment b') = true)
    /\ timeline b `prefix_of` timeline b'
    /\ messages b `prefix_of` messages b'.
Proof.
  intros Hb.
  assert (H : forall d, bookings_evolved db d -> bookings_evolved db (run rqs d)).
  { induction rqs as [|rq rqs IH]; intros d Hd; simpl; [exact Hd|].
    apply IH, hist_handle, Hd. }
  destruct (H db (bookings_evolved_refl db) id b Hb) as (b' & Hb' & He).
  exists b'. split; [exact Hb' | exact He].
Qed.

(** Booking 100 as requested, and the rest of the scenario up to the
    extension. *)
Lemma bookings_are_append_only_witness :
  exists b',
    bookings (run [ReqUpdateStatus approve_100; ReqUpdateStatus pickup_100;
                   ReqExtend extend_100] scn_pending) !! 100%N = Some b'
    /\ borrower b' = 2%N /\ lender b' = 1%N
    /\ timeline scn_b100_pending `prefix_of` timeline b'.
Proof.
  destruct (bookings_are_append_only
              [ReqUpdateStatus approve_100; ReqUpdateStatus pickup_100;
               ReqExtend extend_100]
              scn_pending 100%N scn_b100_pending eq_refl)
    as (b' & Hb' & _ & Hbor & Hlen & _ & _ & _ & _ & _ & _ & _ & _ & _ & Ht & _).
  exists b'. split; [exact Hb'|]. split; [exact Hbor|]. split; [exact Hlen|].
  exact Ht.
Defined.

(** ** Wallets are kept, and only grow *)

Lemma ledger_sum_app_list l k : ledger_sum (l ++ k) = ledger_sum l + ledger_sum k.
Proof. unfold ledger_sum. rewrite !sum_of_app. lia. Qed.

Lemma user_evolves_refl u : user_evolves u u.
Proof. exists []. rewrite app_nil_r. split; [reflexivity|]. unfold ledger_sum. simpl. lia. Qed.

Lemma user_evolves_trans u1 u2 u3 :
  user_evolves u1 u2 -> user_evolves u2 u3 -> user_evolves u1 u3.
Proof.
  intros (k1 & T1 & B1) (k2 & T2 & B2). exists (k1 ++ k2).
  rewrite T2, T1, app_assoc. split; [reflexivity|].
  rewrite ledger_sum_app_list. lia.
Qed.

Lemma evolves_debit a d n bk u :
  user_evolves u (inc_balance_push (- a) (mkTransaction debit a d n bk) u).
Proof. eexists. split; [reflexivity|]. unfold ledger_sum. simpl. lia. Qed.

Lemma evolves_credit a d n bk u :
  user_evolves u (inc_balance_push a (mkTransaction credit a d n bk) u).
Proof. eexists. split; [reflexivity|]. unfold ledger_sum. simpl. lia. Qed.

Lemma evolves_earnings a d n bk u :
  user_evolves u (inc_balance_earnings_push a (mkTransaction credit a d n bk) u).
Proof. eexists. split; [reflexivity|]. unfold ledger_sum. simpl. lia. Qed.

Section UserHistory.
Variable db0 : Db.
Local Abbreviation Inv := (users_evolved db0).

Lemma hist_User_findByIdAndUpdate id f :
  (forall u, user_evolves u (f u)) ->
  hoare Inv (User_findByIdAndUpdate id f) (fun _ => True).
Proof.
  intros Hf db HI. split; [|trivial]. intros i u Hu. simpl.
  destruct (HI i u Hu) as (u' & Hu' & He).
  rewrite lookup_alter. case_decide as E.
  - subst i. exists (f u').
    split; [|eapply user_evolves_trans; [exact He | apply Hf]].
    transitivity (f <$> Some u'); [f_equal; exact Hu' | reflexivity].
  - exists u'. split; [exact Hu' | exact He].
Qed.

Lemma hist_User_create id u :
  hoare Inv (User_create id u) (fun _ => True).
Proof.
  intros db HI. unfold User_create.
  destruct (users db !! id) eqn:E; simpl; [auto|].
  split; [|trivial]. intros i u0 Hu0. simpl.
  destruct (HI i u0 Hu0) as (u' & Hu' & He).
  rewrite lookup_insert. case_decide as Ei; [subst i|eauto].
  assert (X : @None User = Some u') by (rewrite <- E; exact Hu').
  discriminate.
Qed.

Lemma hist_keeps_users {A} (m : Handler A) :
  (forall db, users (fst (m db)) = users db) -> hoare Inv m (fun _ => True).
Proof.
  intros Hm db HI. split; [|trivial]. intros id u Hu. rewrite Hm.
  now apply HI.
Qed.

Ltac wstep :=
  first [ hoare_simple
        | (apply hist_keeps_users; reflexivity)
        | (apply hist_keeps_users; intros ?;
           unfold Booking_save, Booking_save_new;
           repeat case_match; reflexivity)
        | (apply hist_User_findByIdAndUpdate; intros ?;
           first [ apply evolves_debit | apply evolves_credit
                 | apply evolves_earnings ])
        | apply hist_User_create ].

Ltac wseq := hoare_seq; [wstep|].

Lemma hist_users_updateBookingStatus req db :
  Inv db -> Inv (fst (updateBookingStatus req db)).
Proof.
  intros HI. unfold updateBookingStatus. apply hoare_try_catch; [|exact HI].
  wseq. destruct a as [b|]; [|wstep].
  do 3 wseq.
  hoare_seq.
  { destruct (_ || _); [|wstep]. wseq. wstep. }
  hoare_seq; [|wseq; wstep].
  repeat match goal with
         | |- hoare _ (if ?c then _ else _) _ => destruct c
         end.
  - do 4 wseq. wstep.
  - hoare_seq.
    { destruct (depositPaid _); [|wstep]. do 2 wseq. wstep. }
    do 2 wseq. wstep.
  - do 2 wseq. wstep.
  - do 7 wseq. wstep.
  - wstep.
Qed.

Lemma hist_users_handle rq db : Inv db -> Inv (fst (handle rq db)).
Proof.
  destruct rq; simpl.
  - intros HI. unfold register. apply hoare_try_catch; [|exact HI].
    do 2 wseq. wstep.
  - intros HI. unfold addToWallet. apply hoare_try_catch; [|exact HI].
    do 4 wseq. wstep.
  - intros HI. unfold createBooking. apply hoare_try_catch; [|exact HI].
    do 2 wseq. destruct a0 as [it|]; [|wstep]. do 10 wseq. wstep.
  - apply hist_users_updateBookingStatus.
  - intros HI. unfold addBookingMessage. apply hoare_try_catch; [|exact HI].
    wseq. destruct a as [b|]; [|wstep]. do 2 wseq. wstep.
  - intros HI. unfold extendRentalPeriod. apply hoare_try_catch; [|exact HI].
    wseq. destruct a as [b|]; [|wstep]. do 11 wseq. wstep.
  - intros HI. unfold complaintRefund. apply hoare_try_catch; [|exact HI].
    hoare_seq; [|wstep]. destruct (negb _); wstep.
  - intros HI. exact HI.
  - intros HI. exact HI.
Qed.
End UserHistory.

Lemma users_evolved_refl db : users_evolved db db.
Proof. intros id u Hu. exists u. split; [exact Hu | apply user_evolves_refl]. Qed.

(** No request sequence deletes a user or rewrites a wallet history,
    from whatever database it starts: the transactions a wallet had are
    the beginning of the transactions it has, and the balance has moved by
    exactly the credits minus the debits of the transactions added. *)
Theorem wallets_are_append_only rqs db id u :
  users db !! id = Some u ->
  exists u' added,
    users (run rqs db) !! id = Some u'
    /\ transactions (wallet u') = transactions (wallet u) ++ added
    /\ balance (wallet u')
       = balance (wallet u) + (sum_of credit added - sum_of debit added).
Proof.
  intros Hu.
  assert (H : forall d, users_evolved db d -> users_evolved db (run rqs d)).
  { induction rqs as [|rq rqs IH]; intros d Hd; simpl; [exact Hd|].
    apply IH, hist_users_handle, Hd. }
  destruct (H db (users_evolved_refl db) id u Hu) as (u' & Hu' & k & T & B).
  exists u', k. split; [exact Hu'|]. split; [exact T | exact B].
Qed.

(** The borrower of booking 100 from approval to completion: one
    transaction more. *)
Lemma wallets_are_append_only_witness :
  exists u' added,
    users (run [ReqUpdateStatus pickup_100; ReqUpdateStatus complete_100]
               scn_approved) !! 2%N = Some u'
    /\ transactions (wallet u')
       = transactions (wallet scn_borrower_approved) ++ added
    /\ balance (wallet u') = 432 + (sum_of credit added - sum_of debit added).
Proof.
  exact (wallets_are_append_only
           [ReqUpdateStatus pickup_100; ReqUpdateStatus complete_100]
           scn_approved 2%N scn_borrower_approved eq_refl).
Defined.

(** ** Dates in order *)

(** Booking 101 of the scenario, stored with its start before its end. *)
Lemma reachable_dates_witness :
  exists b, bookings scn_pending !! 101%N = Some b /\ startDate b < endDate b.
Proof.
  eexists. split; [vm_compute; reflexivity|].
  refine (reachable_dates scn_pending 101%N _ _ _).
  - exists scn_setup. reflexivity.
  - vm_compute. reflexivity.
Defined.

(** * Payment flags *)

Lemma Status_eqb_eq a b : Status_eqb a b = true -> a = b.
Proof. destruct a, b; simpl; congruence. Qed.

Lemma flags_updateBookingStatus req db :
  all_bookings flags_follow_status db ->
  all_bookings flags_follow_status (fst (updateBookingStatus req db)).
Proof.
  intros HI. unfold updateBookingStatus. apply hoare_try_catch; [|exact HI].
  eapply hoare_bind; [apply hoare_Booking_findById|].
  intros [b|] Hb; [|hoare_simple]. specialize (Hb b eq_refl).
  do 3 (hoare_seq; [apply hoare_keeps_bookings; reflexivity|]).
  hoare_seq.
  { destruct (_ || _); [|hoare_simple]. hoare_seq; hoare_simple. }
  eapply hoare_bind with (Q := flags_follow_status).
  - destruct (String.eqb (us_status req) "approved"
              && Status_eqb (status b) pending) eqn:C1.
    { apply andb_true_iff in C1 as [_ C1]. apply Status_eqb_eq in C1.
      do 2 (hoare_seq; [hoare_simple|]).
      hoare_seq; [apply hoare_keeps_bookings; reflexivity|].
      hoare_seq; [apply hoare_keeps_bookings; reflexivity|].
      apply hoare_ret. unfold flags_follow_status in *. rewrite C1 in Hb.
      simpl. now rewrite Hb. }
    destruct (String.eqb (us_status req) "cancelled").
    { hoare_seq.
      { destruct (depositPaid _); [|hoare_simple].
        do 2 (hoare_seq; [hoare_simple|]).
        apply hoare_keeps_bookings; reflexivity. }
      hoare_seq; [hoare_simple|].
      hoare_seq; [apply hoare_keeps_bookings; reflexivity|].
      apply hoare_ret. unfold flags_follow_status in *. simpl.
      destruct (status b); rewrite ?Hb; simpl; auto. }
    destruct (String.eqb (us_status req) "active"
              && Status_eqb (status b) approved) eqn:C3.
    { apply andb_true_iff in C3 as [_ C3]. apply Status_eqb_eq in C3.
      hoare_seq; [hoare_simple|].
      hoare_seq; [apply hoare_keeps_bookings; reflexivity|].
      apply hoare_ret. unfold flags_follow_status in *. rewrite C3 in Hb.
      simpl. exact Hb. }
    destruct (String.eqb (us_status req) "completed"
              && Status_eqb (status b) active) eqn:C4.
    { apply andb_true_iff in C4 as [_ C4]. apply Status_eqb_eq in C4.
      do 2 (hoare_seq; [hoare_simple|]).
      hoare_seq; [apply hoare_keeps_bookings; reflexivity|].
      hoare_seq; [hoare_simple|].
      do 3 (hoare_seq; [apply hoare_keeps_bookings; reflexivity|]).
      apply hoare_ret. unfold flags_follow_status in *. rewrite C4 in Hb.
      simpl. now rewrite Hb. }
    apply hoare_ret. exact Hb.
  - intros b' Hb'. hoare_seq; [|hoare_simple]. apply hoare_Booking_save. auto.
Qed.

Lemma flags_handle rq db :
  all_bookings flags_follow_status db ->
  all_bookings flags_follow_status (fst (handle rq db)).
Proof.
  destruct rq; simpl.
  - intros HI. unfold register. apply hoare_try_catch; [|exact HI].
    hoare_seq; [hoare_simple|].
    hoare_seq; [|hoare_simple].
    apply hoare_keeps_bookings. intros ?. unfold User_create.
    case_match; reflexivity.
  - intros HI. unfold addToWallet. apply hoare_try_catch; [|exact HI].
    hoare_seq; [hoare_simple|].
    do 2 (hoare_seq; [apply hoare_keeps_bookings; reflexivity|]).
    hoare_seq; hoare_simple.
  - intros HI. unfold createBooking. apply hoare_try_catch; [|exact HI].
    hoare_seq; [hoare_simple|].
    hoare_seq; [apply hoare_keeps_bookings; reflexivity|].
    destruct a0 as [it|]; [|hoare_simple].
    hoare_seq; [apply hoare_keeps_bookings; reflexivity|].
    do 3 (hoare_seq; [hoare_simple|]).
    hoare_seq; [apply hoare_keeps_bookings; reflexivity|].
    hoare_seq; [hoare_simple|].
    hoare_seq; [apply hoare_keeps_bookings; reflexivity|].
    do 2 (hoare_seq; [hoare_simple|]).
    hoare_seq; [|hoare_simple].
    apply hoare_Booking_save_new. intros _. reflexivity.
  - apply flags_updateBookingStatus.
  - intros HI. unfold addBookingMessage. apply hoare_try_catch; [|exact HI].
    eapply hoare_bind; [apply hoare_Booking_findById|].
    intros [b|] Hb; [|hoare_simple]. specialize (Hb b eq_refl).
    hoare_seq; [hoare_simple|].
    hoare_seq; [|hoare_simple]. apply hoare_Booking_save. intros _. exact Hb.
  - intros HI. unfold extendRentalPeriod. apply hoare_try_catch; [|exact HI].
    eapply hoare_bind; [apply hoare_Booking_findById|].
    intros [b|] Hb; [|hoare_simple]. specialize (Hb b eq_refl).
    do 2 (hoare_seq; [apply hoare_keeps_bookings; reflexivity|]).
    do 7 (hoare_seq; [hoare_simple|]).
    hoare_seq; [apply hoare_keeps_bookings; reflexivity|].
    hoare_seq; [|hoare_simple]. apply hoare_Booking_save. intros _. exact Hb.
  - intros HI. unfold complaintRefund. apply hoare_try_catch; [|exact HI].
    hoare_seq; [|hoare_simple].
    destruct (negb _); [apply hoare_keeps_bookings; reflexivity | hoare_simple].
  - intros HI id b. simpl. rewrite lookup_fmap.
    intros [b0 [E ->]]%fmap_Some. specialize (HI id b0 E).
    unfold suspend_update.
    destruct (_ && _) eqn:C; [|exact HI].
    unfold flags_follow_status in *. simpl.
    apply andb_true_iff in C as [_ C]. apply orb_true_iff in C as [C|C];
      apply Status_eqb_eq in C; rewrite C in HI; rewrite HI; auto.
  - intros HI. exact HI.
Qed.

(** A cancellation request writes at most the booking it names, and
    what it writes there is the booking found with status 'cancelled' and
    one more timeline entry. *)
Lemma cancel_writes_one_booking req db :
  us_status req = "cancelled" ->
  bookings (fst (updateBookingStatus req db)) = bookings db
  \/ exists b,
       bookings db !! us_id req = Some b
       /\ bookings (fst (updateBookingStatus req db))
          = <[us_id req := cancelled_booking req b]> (bookings db).
Proof.
  intros Hs. unfold updateBookingStatus. rewrite Hs. handler_unfold.
  unfold Booking_save, pre_save_ok, cancelled_booking.
  destruct (bookings db !! us_id req) as [b|] eqn:Hb; simpl;
    [|left; reflexivity].
  destruct (users db !! lender b); simpl; [|left; reflexivity].
  destruct (lender b =? us_user req)%N; simpl; [|left; reflexivity].
  destruct (depositPaid (payment b)); simpl.
  - destruct (users db !! borrower b); simpl; [|left; reflexivity].
    destruct (items db !! item b); simpl; [|left; reflexivity].
    destruct (startDate b <? endDate b); simpl; [|left; reflexivity].
    right. exists b. split; reflexivity.
  - destruct (items db !! item b); simpl; [|left; reflexivity].
    destruct (startDate b <? endDate b); simpl; [|left; reflexivity].
    right. exists b. split; reflexivity.
Qed.

(** The payment flags of every stored booking agree with its status: a
    pending booking has none; an approved or active one has depositPaid
    alone; a completed one has all four; a cancelled one has one of these
    three patterns.  A cancellation request leaves the payment flags of
    every booking as they were, and so does the bulk cancellation of a
    suspension: the refund a cancellation pays is not recorded in
    depositRefunded. *)
Theorem payment_flags_follow_status :
  (forall db id b,
     reachable db -> bookings db !! id = Some b -> flags_follow_status b)
  /\ (forall req db id b,
        us_status req = "cancelled" ->
        bookings db !! id = Some b ->
        exists b',
          bookings (fst (updateBookingStatus req db)) !! id = Some b'
          /\ payment b' = payment b)
  /\ (forall req db id b,
        bookings db !! id = Some b ->
        exists b',
          bookings (fst (suspendUser req db)) !! id = Some b'
          /\ payment b' = payment b).
Proof.
  split; [|split].
  - intros db id b [rqs <-].
    assert (H : forall d, all_bookings flags_follow_status d ->
                          all_bookings flags_follow_status (run rqs d)).
    { induction rqs as [|rq rqs IH]; intros d Hd; simpl; [exact Hd|].
      apply IH, flags_handle, Hd. }
    intros Hb. refine (H empty_db _ id b Hb).
    intros i b0. simpl. rewrite lookup_empty. discriminate.
  - intros req db id b Hs Hb.
    destruct (cancel_writes_one_booking req db Hs) as [->|(b0 & Hb0 & ->)].
    + exists b. split; [exact Hb|reflexivity].
    + destruct (decide (id = us_id req)) as [->|Hne].
      * rewrite lookup_insert_eq. eexists. split; [reflexivity|].
        assert (E : Some b0 = Some b) by (rewrite <- Hb0; exact Hb).
        injection E as ->. reflexivity.
      * rewrite lookup_insert_ne by congruence.
        exists b. split; [exact Hb|reflexivity].
  - intros req db id b Hb. simpl. rewrite lookup_fmap.
    assert (E : bookings db !! id = Some b) by exact Hb.
    rewrite E. simpl. eexists. split; [reflexivity|].
    unfold suspend_update. now destruct (_ && _).
Qed.

(** Booking 100, approved and then cancelled with its refund: it is
    reachable, cancelled, and its flags are those of the approved booking,
    depositPaid alone, before the cancellation and after. *)
Lemma payment_flags_follow_status_witness :
  flags_follow_status
    (cancelled_booking cancel_100 scn_b100_approved)
  /\ payment <$> bookings scn_approved !! 100%N
     = Some (mkPayment true false false false)
  /\ payment <$> bookings (fst (updateBookingStatus cancel_100 scn_approved))
                 !! 100%N
     = Some (mkPayment true false false false)
  /\ status <$> bookings (fst (updateBookingStatus cancel_100 scn_approved))
                !! 100%N
     = Some cancelled.
Proof.
  split; [|split; [|split]].
  - refine (proj1 payment_flags_follow_status
              (run (scn_to_approved ++ [ReqUpdateStatus cancel_100]) empty_db)
              100%N _ _ _).
    + eexists. reflexivity.
    + vm_compute. reflexivity.
  - vm_compute. reflexivity.
  - destruct (proj1 (proj2 payment_flags_follow_status) cancel_100 scn_approved
                100%N scn_b100_approved) as (b' & Hb' & Hp).
    + reflexivity.
    + vm_compute. reflexivity.
    + rewrite Hb'. simpl. rewrite Hp. reflexivity.
  - vm_compute. reflexivity.
Defined.

(** ** Refusing a request *)

(** The lender's cancellation of a booking whose deposit flag is not
    set, that is of a request never approved, moves no money: every
    wallet is as before, the booking is cancelled with one more timeline
    entry, and the item is flagged available. *)
Theorem cancel_of_unpaid_moves_no_money req db b len it :
  us_status req = "cancelled" ->
  bookings db !! us_id req = Some b ->
  us_user req = lender b ->
  users db !! lender b = Some len ->
  items db !! item b = Some it ->
  depositPaid (payment b) = false ->
  startDate b < endDate b ->
  updateBookingStatus req db
  = (mkDb (users db)
          (<[item b := set_isAvailable true it]> (items db))
          (<[us_id req := cancelled_booking req b]> (bookings db)),
     Res 200 "Booking cancelled successfully").
Proof.
  intros Hs Hb Ha Hl Hi Hd Hlt.
  rewrite (updateBookingStatus_cancel req db b len it); try assumption.
  - cbv zeta. rewrite Hd, (pre_save_ok_dates b b), (alter_Some _ _ _ _ Hi);
      auto.
  - rewrite Hd. discriminate.
Qed.

(** The lender turns down booking 101. *)
Lemma cancel_of_unpaid_moves_no_money_witness :
  users (fst (updateBookingStatus cancel_101 scn_pending)) = users scn_pending.
Proof.
  rewrite (cancel_of_unpaid_moves_no_money cancel_101 scn_pending
             scn_b101_pending new_User drill).
  - reflexivity.
  - reflexivity.
  - vm_compute. reflexivity.
  - reflexivity.
  - vm_compute. reflexivity.
  - vm_compute. reflexivity.
  - reflexivity.
  - reflexivity.
Defined.

(** ** Approving twice over *)

(** Approval looks neither at the item's availability flag nor at the
    other bookings of the item: a pending booking is approved and paid
    although another booking of the same item, overlapping it, is already
    approved and the item is flagged unavailable.  Both are then approved
    for the same days. *)
Theorem approval_allows_double_booking req db b len bor it id2 b2 :
  us_status req = "approved" ->
  bookings db !! us_id req = Some b ->
  status b = pending ->
  us_user req = lender b ->
  users db !! lender b = Some len ->
  users db !! borrower b = Some bor ->
  items db !! item b = Some it ->
  startDate b < endDate b ->
  item_isAvailable it = false ->
  id2 <> us_id req ->
  bookings db !! id2 = Some b2 ->
  item b2 = item b ->
  status b2 = approved ->
  startDate b2 <= endDate b /\ endDate b2 >= startDate b ->
  let db' := fst (updateBookingStatus req db) in
  snd (updateBookingStatus req db) = Res 200 "Booking approved successfully"
  /\ bookings db' !! id2 = Some b2
  /\ exists b',
       bookings db' !! us_id req = Some b'
       /\ status b' = approved /\ item b' = item b2
       /\ startDate b2 <= endDate b' /\ endDate b2 >= startDate b'
       /\ depositPaid (payment b') = true.
Proof.
  intros Hs Hb Hst Ha Hl Hbor Hi Hlt _ Hne Hb2 Hit Hst2 Hov db'. subst db'.
  rewrite (updateBookingStatus_approve req db b len bor it) by assumption.
  cbv zeta. rewrite (pre_save_ok_dates b b) by auto. simpl.
  split; [reflexivity|]. split.
  - rewrite lookup_insert_ne by congruence. exact Hb2.
  - exists (approved_booking req b). rewrite lookup_insert_eq.
    repeat split; simpl; try tauto. congruence.
Qed.

(** The drill is approved for user 3 for days 2 to 4 while it is
    approved for user 2 for days 0 to 5. *)
Lemma approval_allows_double_booking_witness :
  bookings (fst (updateBookingStatus approve_101 scn_approved)) !! 100%N
  = Some scn_b100_approved
  /\ status scn_b100_approved = approved
  /\ exists b',
       bookings (fst (updateBookingStatus approve_101 scn_approved)) !! 101%N
       = Some b'
       /\ status b' = approved.
Proof.
  assert (H := approval_allows_double_booking approve_101 scn_approved
                 scn_b101_pending new_User new_User scn_drill_approved
                 100%N scn_b100_approved
                 eq_refl eq_refl eq_refl eq_refl eq_refl eq_refl eq_refl
                 eq_refl eq_refl).
  cbv zeta in H.
  destruct H as (_ & H2 & b' & Hb' & Hst' & _);
    [discriminate | reflexivity | reflexivity | reflexivity
     | split; discriminate |].
  split; [exact H2|]. split; [reflexivity|].
  exists b'. split; [exact Hb' | exact Hst'].
Defined.
